(** * Meetra web client: resume upload handler and API client

    A shallow embedding of the parts of the Meetra web application that the
    resume-pipeline specification talks about:

    - [lib/types.ts]: the [ResumeState] union;
    - [app/(main)/profile/page.tsx]: the state of [ProfilePage] that the upload
      handler [handleFile] reads and writes, and [handleFile] itself;
    - the shared [ProfileSchema] (zod);
    - [lib/api-client.ts]: [parseResponse] and [apiRequest].

    An [async] function is embedded as the list of commands it performs, with
    every [await] of a timer kept as an explicit suspension point, so that both
    the final state and the states rendered in between can be computed. *)

From stdpp Require Import base strings list gmap.
From Stdlib Require Import ZArith Lia Sorted.

Local Open Scope string_scope.

(* ===================================================================== *)
(** ** lib/types.ts *)
(* ===================================================================== *)

(** [export type ResumeState = 'uploaded' | 'scanned' | 'parsed' | 'failed';] *)
Inductive ResumeState : Type :=
| uploaded
| scanned
| parsed
| failed.

Global Instance ResumeState_eq_dec : EqDecision ResumeState.
Proof. solve_decision. Defined.

(** Every value of the union, in declaration order. *)
Definition ResumeState_values : list ResumeState :=
  [uploaded; scanned; parsed; failed].

(** Position of a state in the pipeline order stated next to
    [RESUME_STATE_LABELS]: UPLOADED -> SCANNED -> PARSED | FAILED.
    The two final states share the last position. *)
Definition stage (s : ResumeState) : nat :=
  match s with
  | uploaded => 0
  | scanned => 1
  | parsed => 2
  | failed => 2
  end.

Definition before (s t : ResumeState) : Prop := stage s < stage t.

(** [RESUME_STATE_LABELS : Record<ResumeState, string>] *)
Definition RESUME_STATE_LABELS (s : ResumeState) : string :=
  match s with
  | uploaded => "Uploaded"
  | scanned => "Scanned"
  | parsed => "Parsed"
  | failed => "Failed"
  end.

(* ===================================================================== *)
(** ** The browser [File] handed to the handler *)
(* ===================================================================== *)

(** The fields of a DOM [File] that matter here: its declared mime type, its
    size in bytes and its content. *)
Record File : Type := mkFile {
  file_name : string;
  file_type : string;
  file_size : N;
  file_bytes : list N;
}.

(* ===================================================================== *)
(** ** app/(main)/profile/page.tsx *)
(* ===================================================================== *)

(** The [useState] cells of [ProfilePage] that the upload path touches. *)
Record PageState : Type := mkPage {
  resumeState : option ResumeState;
  uploadError : option string;
  uploading : bool;
}.

(** What [ProfilePage] starts with: [useState(null)], [useState(null)],
    [useState(false)]. *)
Definition initialPage : PageState :=
  {| resumeState := None; uploadError := None; uploading := false |}.

(** A request to the backend, as [apiRequest(path, { method, .. })] issues it.
    This is the only channel through which the page can create or change
    anything on the server. *)
Record ApiCall : Type := mkCall {
  call_method : string;
  call_path : string;
}.

(** The side effects a handler of the page can perform, one constructor per
    kind of statement: the three state setters, an awaited timer
    ([await new Promise((r) => setTimeout(r, ms))]) and a backend request. *)
Inductive Cmd : Type :=
| setUploadError (e : option string)
| setUploading (b : bool)
| setResumeState (s : ResumeState)
| awaitTimeout (ms : nat)
| callApi (c : ApiCall).

(** The [allowed] array of [handleFile]. *)
Definition allowed : list string :=
  [ "application/pdf";
    "application/vnd.openxmlformats-officedocument.wordprocessingml.document" ].

(** [Array.prototype.includes] on strings (strict equality). *)
Definition includes (l : list string) (x : string) : bool :=
  bool_decide (x ∈ l).

(** [handleFile], as the commands it performs in order.  [uploading] is the
    value captured by the closure ([useCallback(.., [uploading])]); [file] is
    [None] for a missing argument (the [!file] test).

<<
      if (!file || uploading) return;
      if (!allowed.includes(file.type)) {
        setUploadError('Please upload a PDF or DOCX file.');
        return;
      }
      setUploadError(null);
      setUploading(true);
      setResumeState('uploaded');
      await new Promise((r) => setTimeout(r, 600));
      setResumeState('scanned');
      await new Promise((r) => setTimeout(r, 800));
      setResumeState('parsed');
      setUploading(false);
>> *)
Definition handleFile (uploading : bool) (file : option File) : list Cmd :=
  match file with
  | None => []
  | Some file =>
      if uploading then []
      else if negb (includes allowed (file_type file)) then
        [ setUploadError (Some "Please upload a PDF or DOCX file.") ]
      else
        [ setUploadError None;
          setUploading true;
          setResumeState uploaded;
          awaitTimeout 600;
          setResumeState scanned;
          awaitTimeout 800;
          setResumeState parsed;
          setUploading false ]
  end.

(** Effect of one command on the page. Timers and requests leave the
    [useState] cells alone. *)
Definition apply (c : Cmd) (st : PageState) : PageState :=
  match c with
  | setUploadError e =>
      {| resumeState := resumeState st; uploadError := e; uploading := uploading st |}
  | setUploading b =>
      {| resumeState := resumeState st; uploadError := uploadError st; uploading := b |}
  | setResumeState s =>
      {| resumeState := Some s; uploadError := uploadError st; uploading := uploading st |}
  | awaitTimeout _ => st
  | callApi _ => st
  end.

(** Run commands up to the next suspension point.  Returns the page reached
    and, when the code suspended on a timer, the commands still to run once it
    fires. *)
Fixpoint resume (cs : list Cmd) (st : PageState) : PageState * option (list Cmd) :=
  match cs with
  | [] => (st, None)
  | awaitTimeout _ :: k => (st, Some k)
  | c :: k => resume k (apply c st)
  end.

(** Run a handler to completion, every timer firing in turn. *)
Definition run (cs : list Cmd) (st : PageState) : PageState :=
  foldl (fun s c => apply c s) st cs.

(** The pages React gets to render during a run: the state at each suspension
    point and at the end (updates between two suspension points are batched). *)
Fixpoint renders (cs : list Cmd) (st : PageState) : list PageState :=
  match cs with
  | [] => [st]
  | awaitTimeout _ :: k => st :: renders k st
  | c :: k => renders k (apply c st)
  end.

(** The resume states written by a run, in order. *)
Definition statesWritten (cs : list Cmd) : list ResumeState :=
  omap (fun c => match c with setResumeState s => Some s | _ => None end) cs.

(** The error messages written by a run ([None] is [setUploadError(null)]). *)
Definition errorsWritten (cs : list Cmd) : list (option string) :=
  omap (fun c => match c with setUploadError e => Some e | _ => None end) cs.

(** The backend requests issued by a run. *)
Definition requests (cs : list Cmd) : list ApiCall :=
  omap (fun c => match c with callApi a => Some a | _ => None end) cs.

(** The status line of the Resume card:
<<
   {resumeState && ( .. <Badge status={resumeState}>{RESUME_STATE_LABELS[resumeState]}</Badge>
      {resumeState === 'parsed' && (<span ..>Ready for matching.</span>)}
      {resumeState === 'failed' && (<span ..>You can re-upload. Your last successful resume remains active.</span>)}
>> *)
Definition statusLine (st : PageState) : option (string * option string) :=
  match resumeState st with
  | None => None
  | Some s =>
      Some (RESUME_STATE_LABELS s,
            match s with
            | parsed => Some "Ready for matching."
            | failed => Some "You can re-upload. Your last successful resume remains active."
            | _ => None
            end)
  end.

(** Sample inputs. *)
Definition pdf : string := "application/pdf".
Definition docx : string :=
  "application/vnd.openxmlformats-officedocument.wordprocessingml.document".

Definition sample_pdf : File :=
  {| file_name := "cv.pdf"; file_type := pdf; file_size := 3; file_bytes := [37; 80; 68]%N |}.
Definition sample_png : File :=
  {| file_name := "me.png"; file_type := "image/png"; file_size := 4;
     file_bytes := [137; 80; 78; 71]%N |}.

Definition busyPage : PageState :=
  {| resumeState := Some uploaded; uploadError := None; uploading := true |}.

(** The handler lets a submission through when no upload is in progress and
    the mime type is one of [allowed]: the two tests at its top. *)
Definition accepts (uploading : bool) (f : File) : bool :=
  negb uploading && includes allowed (file_type f).

(** A call that ends without suspending, having written an error message and
    nothing else: no state of the resume shown, no upload started, no request
    sent. *)
Definition rejectedWith (msg : string) (cs : list Cmd) (st : PageState) : Prop :=
  resume cs st
    = ({| resumeState := resumeState st; uploadError := Some msg; uploading := uploading st |},
       None)
  /\ statesWritten cs = []
  /\ requests cs = [].

(* --------------------------------------------------------------------- *)
(** *** The page as a transition system *)
(* --------------------------------------------------------------------- *)

(** The page between two browser tasks: the committed [useState] cells, the
    value of [uploading] captured by the [handleFile] closure that is currently
    attached to the DOM, and the continuations of the calls suspended on a
    timer. *)
Record Config : Type := mkConfig {
  page : PageState;
  closure : bool;
  inflight : list (list Cmd);
}.

(** What can happen next: the user hands over a file ([onDrop], or [onChange]
    of the file input: both call [handleFile(f)]); the timer of a suspended
    call fires; React renders, which recreates [handleFile] over the committed
    [uploading]. *)
Inductive Event : Type :=
| choose (f : File)
| timer (i : nat)
| render.

(** One browser task.  State updates made inside a DOM event are flushed
    before the next event is dispatched, so a [choose] that changed something
    ends with a render; updates made from a timer wait for a [render]. *)
Definition step (c : Config) (e : Event) : Config :=
  match e with
  | choose f =>
      let cs := handleFile (closure c) (Some f) in
      let '(st, k) := resume cs (page c) in
      {| page := st;
         closure := match cs with [] => closure c | _ => uploading st end;
         inflight := inflight c ++ option_list k |}
  | timer i =>
      match inflight c !! i with
      | None => c
      | Some cs =>
          let '(st, k) := resume cs (page c) in
          {| page := st;
             closure := closure c;
             inflight := delete i (inflight c) ++ option_list k |}
      end
  | render =>
      {| page := page c; closure := uploading (page c); inflight := inflight c |}
  end.

Definition initialConfig : Config :=
  {| page := initialPage; closure := false; inflight := [] |}.

Inductive reachable : Config -> Prop :=
| reachable_init : reachable initialConfig
| reachable_step c e : reachable c -> reachable (step c e).

(** The commands of a call that gets past both tests. *)
Definition fullRun : list Cmd :=
  [ setUploadError None; setUploading true; setResumeState uploaded; awaitTimeout 600;
    setResumeState scanned; awaitTimeout 800; setResumeState parsed; setUploading false ].

(** The two continuations [handleFile] can be suspended in. *)
Definition afterUpload : list Cmd :=
  [ setResumeState scanned; awaitTimeout 800; setResumeState parsed; setUploading false ].
Definition afterScan : list Cmd :=
  [ setResumeState parsed; setUploading false ].

(** Invariant of the transition system: either nothing is in flight and the
    flag is down, or exactly one call is suspended, the flag is up, the
    attached closure has seen it, and the page shows the state written just
    before the suspension. *)
Definition idleOrSingle (c : Config) : Prop :=
  (inflight c = [] /\ uploading (page c) = false)
  \/ (exists k, inflight c = [k] /\ uploading (page c) = true /\ closure c = true
                /\ ((k = afterUpload /\ resumeState (page c) = Some uploaded)
                    \/ (k = afterScan /\ resumeState (page c) = Some scanned))).

(* --------------------------------------------------------------------- *)
(** *** The page together with a backend *)
(* --------------------------------------------------------------------- *)

Section Backend.
(** Whatever the server keeps (resume records, extracted profiles, the
    active-resume pointer of each user) and however it reacts to a request. *)
Context {Server : Type} (serve : ApiCall -> Server -> Server).

Definition applyWorld (c : Cmd) (w : PageState * Server) : PageState * Server :=
  match c with
  | callApi a => (w.1, serve a w.2)
  | _ => (apply c w.1, w.2)
  end.

Definition runWorld (cs : list Cmd) (w : PageState * Server) : PageState * Server :=
  foldl (fun w c => applyWorld c w) w cs.
End Backend.

(** A toy backend to run the page against: [POST /resumes] (the upload route
    exercised by [apps/api/scripts/e2e_resume_test.sh]) stores a resume under a
    fresh id and makes it the active one; every other request changes
    nothing. *)
Record SampleServer : Type := mkServer {
  nextId : nat;
  active : option nat;
}.

Definition sampleServe (a : ApiCall) (sv : SampleServer) : SampleServer :=
  if bool_decide (call_method a = "POST") && bool_decide (call_path a = "/resumes")
  then {| nextId := S (nextId sv); active := Some (nextId sv) |}
  else sv.

(** A user whose first resume, id 1, was parsed and is the active one. *)
Definition parsedPage : PageState :=
  {| resumeState := Some parsed; uploadError := None; uploading := false |}.
Definition serverWithResume1 : SampleServer :=
  {| nextId := 2; active := Some 1 |}.

(* --------------------------------------------------------------------- *)
(** *** Vocabulary of the specification, for comparison *)
(* --------------------------------------------------------------------- *)

(** The lifecycle states as the specification lists them:
    UPLOADED | SCANNING | SCANNED | EXTRACTING | PARSING | PARSED | FAILED. *)
Inductive SpecState : Type :=
| UPLOADED
| SCANNING
| SCANNED
| EXTRACTING
| PARSING
| PARSED
| FAILED.

Global Instance SpecState_eq_dec : EqDecision SpecState.
Proof. solve_decision. Defined.

(** The specification's name for each state of the code. *)
Definition specName (s : ResumeState) : SpecState :=
  match s with
  | uploaded => UPLOADED
  | scanned => SCANNED
  | parsed => PARSED
  | failed => FAILED
  end.

(** The verdict of a malware scanner on raw bytes, as the specification
    describes its contract: clean, or rejected with a reason. *)
Inductive Verdict : Type :=
| Clean
| Rejected (reason : string).

(** A scanner to test with: it rejects content that starts with the given
    signature. *)
Fixpoint startsWith (sig bytes : list N) : bool :=
  match sig, bytes with
  | [], _ => true
  | s :: sig', b :: bytes' => bool_decide (s = b) && startsWith sig' bytes'
  | _ :: _, [] => false
  end.

Definition signatureScan (sig : list N) (bytes : list N) : Verdict :=
  if startsWith sig bytes then Rejected "signature match" else Clean.

(** ["X5O!"], the first bytes of the EICAR anti-virus test file. *)
Definition eicar : list N := [88; 53; 79; 33]%N.

Definition infected_pdf : File :=
  {| file_name := "cv.pdf"; file_type := pdf; file_size := 6;
     file_bytes := [88; 53; 79; 33; 80; 37]%N |}.

(** A PDF one byte above a ceiling of 10 MiB. *)
Definition ceiling10MiB : N := 10485760.
Definition oversized_pdf : File :=
  {| file_name := "big.pdf"; file_type := pdf; file_size := 10485761;
     file_bytes := [37; 80; 68]%N |}.

(** The document of the end-to-end scenario: a DOCX whose text is
    "Skills: Python, FastAPI". *)
Definition skills_docx : File :=
  {| file_name := "resume.docx"; file_type := docx; file_size := 23;
     file_bytes := [83; 107; 105; 108; 108; 115; 58; 32; 80; 121; 116; 104; 111; 110;
                    44; 32; 70; 97; 115; 116; 65; 80; 73]%N |}.

(* ===================================================================== *)
(** ** JSON values *)
(* ===================================================================== *)

(** What [JSON.parse] produces. Numbers are kept as their literal. *)
#[local] Unset Elimination Schemes.
Inductive Json : Type :=
| JNull
| JBool (b : bool)
| JNum (literal : string)
| JStr (s : string)
| JArr (items : list Json)
| JObj (fields : list (string * Json)).
#[local] Set Elimination Schemes.

(** [key in obj] / [obj[key]] on a parsed object. *)
Fixpoint field (key : string) (fields : list (string * Json)) : option Json :=
  match fields with
  | [] => None
  | (k, v) :: rest => if bool_decide (k = key) then Some v else field key rest
  end.

(* ===================================================================== *)
(** ** The shared [ProfileSchema] *)
(* ===================================================================== *)

(** [export type Profile = z.infer<typeof ProfileSchema>] *)
Record Profile : Type := mkProfile {
  fullName : string;
  skills : list string;
}.

(** [z.string()] *)
Definition zString (v : Json) : option string :=
  match v with JStr s => Some s | _ => None end.

(** [ProfileSchema.parse]:
<<
export const ProfileSchema = z.object({
  fullName: z.string().min(1),
  skills: z.array(z.string()).default([]),
});
>>
    [None] when validation fails. Keys the schema does not name are dropped. *)
Definition ProfileSchema (input : Json) : option Profile :=
  match input with
  | JObj fields =>
      name ← field "fullName" fields ≫= zString;
      _ ← guard (1 <= String.length name);
      sk ← match field "skills" fields with
            | None => Some []
            | Some (JArr items) => mapM zString items
            | Some _ => None
            end;
      Some {| fullName := name; skills := sk |}
  | _ => None
  end.

(** Two candidate profiles for the end-to-end scenario: skills as plain
    strings, and skills as (value, confidence) pairs. *)
Definition plainSkills : Json :=
  JObj [ ("fullName", JStr "Ada Example");
         ("skills", JArr [JStr "Python"; JStr "FastAPI"]) ].

Definition scoredSkill (value : string) (confidence : Json) : Json :=
  JObj [ ("value", JStr value); ("confidence", confidence) ].

Definition scoredSkills (c1 c2 : Json) : Json :=
  JObj [ ("fullName", JStr "Ada Example");
         ("skills", JArr [scoredSkill "Python" c1; scoredSkill "FastAPI" c2]) ].

(* ===================================================================== *)
(** ** lib/api-client.ts *)
(* ===================================================================== *)

(** A value thrown or used to reject a promise: an [Error] with its message,
    or anything else. *)
Inductive Thrown : Type :=
| ErrorObject (message : string)
| OtherValue (v : Json).

(** Result of running code that may throw. *)
Inductive Completion (A : Type) : Type :=
| Return (a : A)
| Throw (e : Thrown).
Arguments Return {A} a.
Arguments Throw {A} e.

Global Instance Completion_ret : MRet Completion := fun A a => Return a.
Global Instance Completion_bind : MBind Completion := fun A B k m =>
  match m with
  | Return a => k a
  | Throw e => Throw e
  end.

(** A fetch [Response]: status line, and what reading the body with
    [res.text()] gives: the text, or a rejection when the stream breaks or
    the request is aborted after the headers arrived. *)
Inductive Body : Type :=
| BodyText (text : string)
| BodyFails (e : Thrown).

Record Response : Type := mkResponse {
  status : Z;
  statusText : string;
  body : Body;
}.

(** [res.ok]: the status is in the range 200-299. *)
Definition ok (res : Response) : bool :=
  ((200 <=? status res) && (status res <=? 299))%Z.

(** [res.text()] *)
Definition text (res : Response) : Completion string :=
  match body res with
  | BodyText t => Return t
  | BodyFails e => Throw e
  end.

(** What [fetch] is called with. *)
Record Request : Type := mkRequest {
  url : string;
  method : option string;
  reqBody : option string;
  headers : gmap string string;
  credentials : string;
}.

Inductive FetchOutcome : Type :=
| Resolves (res : Response)
| Rejects (e : Thrown).

(** [RequestInit & { token?: string | null }], the fields in use. *)
Record Options : Type := mkOptions {
  token : option string;
  optMethod : option string;
  optBody : option string;
  optHeaders : gmap string string;
}.

Definition noOptions : Options :=
  {| token := None; optMethod := None; optBody := None; optHeaders := ∅ |}.

(** [export type ApiError = { detail: ..; statusCode: number }] *)
Record ApiError : Type := mkApiError {
  detail : Json;
  statusCode : Z;
}.

(** [{ data?: T; error?: ApiError }]: the two shapes [apiRequest] returns.
    [Data None] is [{ data: undefined }]. *)
Inductive ApiResult : Type :=
| Data (data : option Json)
| Error (error : ApiError).

Section ApiClient.
(** [API_BASE] and [API_PREFIX] come from [./config]; [JSON.parse] and
    [fetch] from the browser. [JSON_parse] gives [None] where [JSON.parse]
    throws. *)
Variables (API_BASE API_PREFIX : string).
Variable JSON_parse : string -> option Json.
Variable fetch : Request -> FetchOutcome.

(**
<<
  async function parseResponse<T>(res: Response): Promise<T> {
    const text = await res.text();
    if (!text) return undefined as T;
    try {
      return JSON.parse(text) as T;
    } catch {
      return undefined as T;
    }
  }
>> *)
Definition parseResponse (res : Response) : Completion (option Json) :=
  t ← text res;
  if bool_decide (t = "") then Return None
  else match JSON_parse t with
       | Some v => Return (Some v)
       | None => Return None
       end.

(** [if (token)]: [null], [undefined] and the empty string are falsy. *)
Definition bearer (tok : option string) : option string :=
  match tok with
  | Some t => if bool_decide (t = "") then None else Some ("Bearer " ++ t)
  | None => None
  end.

Definition requestOf (path : string) (options : Options) : Request :=
  let hs := optHeaders options ∪ {[ "Content-Type" := "application/json" ]} in
  {| url := API_BASE ++ API_PREFIX ++ path;
     method := optMethod options;
     reqBody := optBody options;
     headers := match bearer (token options) with
                | Some b => <[ "Authorization" := b ]> hs
                | None => hs
                end;
     credentials := "include" |}.

(** [err instanceof Error ? err.message : 'Failed to fetch'] *)
Definition messageOf (err : Thrown) : string :=
  match err with
  | ErrorObject m => m
  | OtherValue _ => "Failed to fetch"
  end.

(** [typeof data === 'object' && data && 'detail' in data ? data.detail : res.statusText] *)
Definition detailOf (data : option Json) (res : Response) : Json :=
  match data with
  | Some (JObj fields) =>
      match field "detail" fields with
      | Some d => d
      | None => JStr (statusText res)
      end
  | _ => JStr (statusText res)
  end.

(**
<<
  let res: Response;
  try {
    res = await fetch(url, { ...init, headers, credentials: 'include' });
  } catch (err) {
    const message = err instanceof Error ? err.message : 'Failed to fetch';
    return { error: { detail: `Network error. Check API URL and CORS settings. (${message})`,
                      statusCode: 0 } };
  }
  const data = await parseResponse<T>(res);
  if (!res.ok) {
    const detail = .. ;
    return { error: { detail: detail as ApiError['detail'], statusCode: res.status } };
  }
  return { data: data as T };
>> *)
Definition apiRequest (path : string) (options : Options) : Completion ApiResult :=
  match fetch (requestOf path options) with
  | Rejects err =>
      Return (Error {| detail := JStr ("Network error. Check API URL and CORS settings. ("
                                        ++ messageOf err ++ ")");
                       statusCode := 0 |})
  | Resolves res =>
      data ← parseResponse res;
      if negb (ok res) then
        Return (Error {| detail := detailOf data res; statusCode := status res |})
      else Return (Data data)
  end.
End ApiClient.

(** A server that answers 200 and then drops the connection while the body
    is read, and a [JSON.parse] that knows two texts. *)
Definition droppedBody : Response :=
  {| status := 200; statusText := "OK"; body := BodyFails (ErrorObject "network error") |}.

Definition droppingFetch (req : Request) : FetchOutcome := Resolves droppedBody.

Definition sampleParse (t : string) : option Json :=
  if bool_decide (t = "null") then Some JNull
  else if bool_decide (t = "[]") then Some (JArr [])
  else None.

(* ===================================================================== *)
(** ** lib/config.ts *)
(* ===================================================================== *)

(** [s.replace(/\/$/, '')]: a slash at the very end of the text is removed,
    one at most. *)
Fixpoint dropTrailingSlash (s : string) : string :=
  match s with
  | EmptyString => EmptyString
  | String c EmptyString => if bool_decide (s = "/") then EmptyString else s
  | String c rest => String c (dropTrailingSlash rest)
  end.

(**
<<
export const API_BASE =
  typeof process !== 'undefined' && process.env.NEXT_PUBLIC_API_URL
    ? process.env.NEXT_PUBLIC_API_URL.replace(/\/$/, '')
    : '';
>>
    [env] is [process.env.NEXT_PUBLIC_API_URL], [None] when it is not set (or
    there is no [process]). *)
Definition apiBase (env : option string) : string :=
  match env with
  | Some u => if bool_decide (u = "") then "" else dropTrailingSlash u
  | None => ""
  end.

(** [export const API_PREFIX = '/v1';] *)
Definition apiPrefix : string := "/v1".

(** Whether a text ends with a slash. *)
Fixpoint endsWithSlash (s : string) : bool :=
  match s with
  | EmptyString => false
  | String c EmptyString => bool_decide (s = "/")
  | String _ rest => endsWithSlash rest
  end.

(* ===================================================================== *)
(** ** JavaScript values at run time *)
(* ===================================================================== *)

(** A value that may be [undefined]. *)
Abbreviation JsVal := (option Json).

(** [v.key] on a parsed value: only objects have the keys read here. *)
Definition prop (key : string) (v : Json) : JsVal :=
  match v with
  | JObj fields => field key fields
  | _ => None
  end.

(** [v == null]: the left side of [??] is skipped for [null] and
    [undefined]. *)
Definition nullish (v : JsVal) : bool :=
  match v with
  | None | Some JNull => true
  | _ => false
  end.

(** Truthiness. [isZero] tells whether a number literal denotes 0. *)
Definition truthy (isZero : string -> bool) (v : JsVal) : bool :=
  match v with
  | None | Some JNull => false
  | Some (JBool b) => b
  | Some (JNum n) => negb (isZero n)
  | Some (JStr s) => negb (bool_decide (s = ""))
  | Some (JArr _) | Some (JObj _) => true
  end.

(* ===================================================================== *)
(** ** lib/api-client.ts, continued *)
(* ===================================================================== *)

(**
<<
export function getApiErrorMessage(error: ApiError): string {
  if (typeof error.detail === 'string') return error.detail;
  return error.detail?.message ?? error.detail?.code ?? 'Something went wrong';
}
>>
    The result is what the expression evaluates to, a string or not. *)
Definition getApiErrorMessage (error : ApiError) : Json :=
  match detail error with
  | JStr s => JStr s
  | d =>
      match prop "message" d with
      | Some m => if nullish (Some m) then
                    match prop "code" d with
                    | Some c => if nullish (Some c) then JStr "Something went wrong" else c
                    | None => JStr "Something went wrong"
                    end
                  else m
      | None =>
          match prop "code" d with
          | Some c => if nullish (Some c) then JStr "Something went wrong" else c
          | None => JStr "Something went wrong"
          end
      end
  end.

(** A [detail] of the declared type [string | { code?: string; message?: string }]. *)
Definition optionalString (v : JsVal) : Prop :=
  match v with
  | None => True
  | Some (JStr _) => True
  | Some _ => False
  end.

Definition typedDetail (d : Json) : Prop :=
  match d with
  | JStr _ => True
  | JObj fields => optionalString (field "message" fields) /\ optionalString (field "code" fields)
  | _ => False
  end.

Definition isString (v : Json) : Prop :=
  match v with JStr _ => True | _ => False end.

(* ===================================================================== *)
(** ** lib/matches-api.ts *)
(* ===================================================================== *)

Section MatchesApi.
Variables (API_BASE API_PREFIX : string).
Variable JSON_parse : string -> option Json.
Variable fetch : Request -> FetchOutcome.
Variable isZero : string -> bool.

(** [{ token }]: options with nothing but the token. *)
Definition withToken (tok : option string) : Options :=
  {| token := tok; optMethod := None; optBody := None; optHeaders := ∅ |}.

(**
<<
  const { data, error } = await apiRequest<Match[]>(`/events/${eventId}/matches`, {
    token: _token,
  });
  if (error && error.statusCode !== 404) return { error };
  if (data) return { data };
  return { data: [] };
>> *)
Definition fetchMatchesForEvent (_token : option string) (eventId : string)
    : Completion ApiResult :=
  r ← apiRequest API_BASE API_PREFIX JSON_parse fetch
        ("/events/" ++ eventId ++ "/matches") (withToken _token);
  match r with
  | Error e =>
      if bool_decide (statusCode e ≠ 404%Z) then Return (Error e)
      else Return (Data (Some (JArr [])))
  | Data d =>
      if truthy isZero d then Return (Data d)
      else Return (Data (Some (JArr [])))
  end.

(**
<<
  const { data, error } = await apiRequest<..>(
    `/events/${eventId}/matches/${matchId}`,
    { token: _token },
  );
  if (error && error.statusCode !== 404) return { error };
  return { data: data ?? undefined };
>> *)
Definition fetchMatchDetail (_token : option string) (eventId matchId : string)
    : Completion ApiResult :=
  r ← apiRequest API_BASE API_PREFIX JSON_parse fetch
        ("/events/" ++ eventId ++ "/matches/" ++ matchId) (withToken _token);
  match r with
  | Error e =>
      if bool_decide (statusCode e ≠ 404%Z) then Return (Error e)
      else Return (Data None)
  | Data d => Return (Data (if nullish d then None else d))
  end.
End MatchesApi.

(* ===================================================================== *)
(** ** lib/events-api.ts *)
(* ===================================================================== *)

(** [export type EventStatus = 'draft' | 'published' | 'closed' | 'cancelled';] *)
Inductive EventStatus : Type :=
| draft
| published
| closed
| cancelled.

Global Instance EventStatus_eq_dec : EqDecision EventStatus.
Proof. solve_decision. Defined.

(** The two fields of an event that [isRegistrationOpen] reads;
    [rsvp_deadline] is [None] for [null]. *)
Record EventDates : Type := mkEventDates {
  event_status : EventStatus;
  rsvp_deadline : option string;
}.

(**
<<
export function isRegistrationOpen(event: { status: EventStatus; rsvp_deadline: string | null }): boolean {
  if (event.status !== 'published') return false;
  if (!event.rsvp_deadline) return true;
  return new Date(event.rsvp_deadline) > new Date();
}
>>
    [Date_parse] gives the time value of [new Date(text)] in milliseconds,
    [None] for an invalid date; [now] is the time value of [new Date()].
    A comparison with an invalid date is false. *)
Definition isRegistrationOpen (Date_parse : string -> option Z) (now : Z)
    (event : EventDates) : bool :=
  if bool_decide (event_status event ≠ published) then false
  else match rsvp_deadline event with
       | None => true
       | Some d =>
           if bool_decide (d = "") then true
           else match Date_parse d with
                | Some t => (now <? t)%Z
                | None => false
                end
       end.

(** A date parser to test with: it knows the deadline of one event. *)
Definition sampleDates (textual : string) : option Z :=
  if bool_decide (textual = "2026-01-01T00:00:00Z") then Some 1767225600000%Z else None.

Definition sampleEvent : EventDates :=
  {| event_status := published; rsvp_deadline := Some "2026-01-01T00:00:00Z" |}.


(* ===================================================================== *)
(** ** lib/auth-context.tsx *)
(* ===================================================================== *)

(** [MeUser], with the values the fields hold at run time. *)
Record MeUser : Type := mkMeUser {
  me_user_id : JsVal;
  me_email : JsVal;
  me_name : JsVal;
  me_role : JsVal;
  me_status : JsVal;
}.

(** The [useState] cells [user] and [accessToken] of [AuthProvider], the
    [access_token] entry of [sessionStorage] and the route the router was
    last sent to. [user = None] is [null]. *)
Record AuthState : Type := mkAuth {
  user : option MeUser;
  accessToken : JsVal;
  storedToken : option string;
  location : string;
}.

(** The statements the callbacks of [AuthProvider] are made of. *)
Inductive AuthCmd : Type :=
| setUser (u : option MeUser)
| setAccessToken (t : JsVal)
| persistToken (t : JsVal)
| routerPush (path : string).

(** [{ ok: boolean; error?: string }] *)
Record AuthResult : Type := mkAuthResult {
  result_ok : bool;
  result_error : JsVal;
}.

(** [v ?? null] *)
Definition orNull (v : JsVal) : JsVal :=
  if nullish v then Some JNull else v.

(**
<<
  const setUserFromTokens = useCallback((auth: AuthUser) => {
    setAccessToken(auth.access_token);
    persistToken(auth.access_token);
    setUser({
      user_id: auth.user_id,
      email: auth.email ?? null,
      name: auth.name ?? null,
      role: auth.role,
      status: auth.status,
    });
  }, []);
>> *)
Definition setUserFromTokens (auth : Json) : list AuthCmd :=
  [ setAccessToken (prop "access_token" auth);
    persistToken (prop "access_token" auth);
    setUser (Some {| me_user_id := prop "user_id" auth;
                     me_email := orNull (prop "email" auth);
                     me_name := orNull (prop "name" auth);
                     me_role := prop "role" auth;
                     me_status := prop "status" auth |}) ].

(** The three statements that end a session locally:
    [setUser(null); setAccessToken(null); persistToken(null);] *)
Definition clearSession : list AuthCmd :=
  [ setUser None; setAccessToken (Some JNull); persistToken (Some JNull) ].

(** [isAuthenticated: !!user && user.status === 'active'] *)
Definition isAuthenticated (st : AuthState) : bool :=
  match user st with
  | Some u =>
      match me_status u with
      | Some (JStr s) => bool_decide (s = "active")
      | _ => false
      end
  | None => false
  end.

(** [getStoredToken()], in the browser. *)
Definition getStoredToken (st : AuthState) : option string := storedToken st.

Section AuthContext.
Variables (API_BASE API_PREFIX : string).
Variable JSON_parse : string -> option Json.
Variable fetch : Request -> FetchOutcome.
(** [isZero]: whether a number literal denotes 0. [toStr]: the text of a value
    that is not a string, where one is needed. [window]: whether the code
    runs in a browser. [trim], [toLowerCase], [JSON_stringify]: the built-ins
    of these names. *)
Variable isZero : string -> bool.
Variable toStr : Json -> string.
Variable window : bool.
Variables trim toLowerCase : string -> string.
Variable JSON_stringify : Json -> string.

(** The text a value is stored or sent as. *)
Definition textOf (v : Json) : string :=
  match v with
  | JStr s => s
  | _ => toStr v
  end.

(**
<<
function persistToken(token: string | null) {
  if (typeof window === 'undefined') return;
  if (token) sessionStorage.setItem(TOKEN_KEY, token);
  else sessionStorage.removeItem(TOKEN_KEY);
}
>> *)
Definition applyAuth (c : AuthCmd) (st : AuthState) : AuthState :=
  match c with
  | setUser u =>
      {| user := u; accessToken := accessToken st;
         storedToken := storedToken st; location := location st |}
  | setAccessToken t =>
      {| user := user st; accessToken := t;
         storedToken := storedToken st; location := location st |}
  | persistToken t =>
      if negb window then st
      else {| user := user st; accessToken := accessToken st;
              storedToken := match t with
                             | Some v => if truthy isZero t then Some (textOf v) else None
                             | None => None
                             end;
              location := location st |}
  | routerPush path =>
      {| user := user st; accessToken := accessToken st;
         storedToken := storedToken st; location := path |}
  end.

Definition runAuth (cs : list AuthCmd) (st : AuthState) : AuthState :=
  foldl (fun s c => applyAuth c s) st cs.

(** The [token] option built from the [accessToken] cell: a falsy value adds
    no header, any other is sent as its text. *)
Definition tokenOption (t : JsVal) : option string :=
  match t with
  | Some v => if truthy isZero t then Some (textOf v) else None
  | None => None
  end.

Definition post (tok : option string) (body : option string) : Options :=
  {| token := tok; optMethod := Some "POST"; optBody := body; optHeaders := ∅ |}.

(**
<<
  const refresh = useCallback(async (): Promise<boolean> => {
    const { data, error } = await apiRequest<AuthUser>('/auth/refresh', {
      method: 'POST', credentials: 'include', body: JSON.stringify({}),
    });
    if (error || !data) {
      setUser(null);
      setAccessToken(null);
      persistToken(null);
      return false;
    }
    setUserFromTokens(data);
    return true;
  }, [setUserFromTokens]);
>> *)
Definition refresh : Completion (bool * list AuthCmd) :=
  r ← apiRequest API_BASE API_PREFIX JSON_parse fetch "/auth/refresh"
        (post None (Some (JSON_stringify (JObj []))));
  match r with
  | Data (Some v) =>
      if truthy isZero (Some v) then Return (true, setUserFromTokens v)
      else Return (false, clearSession)
  | _ => Return (false, clearSession)
  end.

(**
<<
  const login = useCallback(async (email: string, password: string) => {
      const { data, error } = await apiRequest<AuthUser>('/auth/login', {
        method: 'POST', credentials: 'include',
        body: JSON.stringify({ email: email.trim().toLowerCase(), password }),
      });
      if (error) return { ok: false, error: getApiErrorMessage(error) };
      if (!data) return { ok: false, error: 'Login failed' };
      setUserFromTokens(data);
      router.push('/events');
      return { ok: true };
    }, [router, setUserFromTokens]);
>> *)
Definition login (email password : string) : Completion (AuthResult * list AuthCmd) :=
  r ← apiRequest API_BASE API_PREFIX JSON_parse fetch "/auth/login"
        (post None (Some (JSON_stringify
                            (JObj [ ("email", JStr (toLowerCase (trim email)));
                                    ("password", JStr password) ]))));
  match r with
  | Error e =>
      Return ({| result_ok := false; result_error := Some (getApiErrorMessage e) |}, [])
  | Data (Some v) =>
      if truthy isZero (Some v) then
        Return ({| result_ok := true; result_error := None |},
                (setUserFromTokens v ++ [routerPush "/events"])%list)
      else Return ({| result_ok := false; result_error := Some (JStr "Login failed") |}, [])
  | Data None =>
      Return ({| result_ok := false; result_error := Some (JStr "Login failed") |}, [])
  end.

(**
<<
  const logout = useCallback(async () => {
    await apiRequest('/auth/logout', {
      method: 'POST', credentials: 'include', token: accessToken,
    });
    setUser(null);
    setAccessToken(null);
    persistToken(null);
    router.push('/login');
  }, [accessToken, router]);
>>
    [tok] is the [accessToken] the callback closed over. *)
Definition logout (tok : JsVal) : Completion (list AuthCmd) :=
  _ ← apiRequest API_BASE API_PREFIX JSON_parse fetch "/auth/logout"
        (post (tokenOption tok) None);
  Return (clearSession ++ [routerPush "/login"])%list.
End AuthContext.

(** A signed-in session and a server to test with. *)
Definition signedIn : AuthState :=
  {| user := Some {| me_user_id := Some (JStr "u1"); me_email := Some (JStr "ada@example.com");
                     me_name := Some JNull; me_role := Some (JStr "attendee");
                     me_status := Some (JStr "active") |};
     accessToken := Some (JStr "tok-1");
     storedToken := Some "tok-1";
     location := "/events" |}.

Definition signedOut : AuthState :=
  {| user := None; accessToken := Some JNull; storedToken := None; location := "/login" |}.

Definition authPayload : Json :=
  JObj [ ("access_token", JStr "tok-2"); ("token_type", JStr "bearer");
         ("user_id", JStr "u1"); ("email", JStr "ada@example.com");
         ("role", JStr "attendee"); ("status", JStr "active") ].

(** Answers 204 with an empty body to everything. *)
Definition emptyFetch (req : Request) : FetchOutcome :=
  Resolves {| status := 204; statusText := "No Content"; body := BodyText "" |}.

(** Answers 200 with a body that [authParse] reads as [authPayload]. *)
Definition authFetch (req : Request) : FetchOutcome :=
  Resolves {| status := 200; statusText := "OK"; body := BodyText "auth" |}.
Definition authParse (t : string) : option Json :=
  if bool_decide (t = "auth") then Some authPayload else None.

(** Answers 401 with a body that [deniedParse] reads as an object with a
    [detail] text. *)
Definition deniedFetch (req : Request) : FetchOutcome :=
  Resolves {| status := 401; statusText := "Unauthorized"; body := BodyText "denied" |}.
Definition deniedParse (t : string) : option Json :=
  if bool_decide (t = "denied") then Some (JObj [("detail", JStr "Invalid email or password")])
  else None.

(** Answers 404 with an empty body. *)
Definition notFoundFetch (req : Request) : FetchOutcome :=
  Resolves {| status := 404; statusText := "Not Found"; body := BodyText "" |}.

Definition neverZero (literal : string) : bool := false.
Definition noText (v : Json) : string := "".


(* ===================================================================== *)
(** ** Further definitions for the properties below *)
(* ===================================================================== *)

(** What the page can look like: idle with nothing shown or a parsed resume;
    or busy with exactly one call suspended, no error message, and the state
    written just before the suspension. *)
Definition pageShape (c : Config) : Prop :=
  (inflight c = [] /\ uploading (page c) = false
   /\ (resumeState (page c) = None \/ resumeState (page c) = Some parsed))
  \/ (exists k, inflight c = [k] /\ uploading (page c) = true /\ closure c = true
                /\ uploadError (page c) = None
                /\ ((k = afterUpload /\ resumeState (page c) = Some uploaded)
                    \/ (k = afterScan /\ resumeState (page c) = Some scanned))).

(** The label of the file chooser: [{uploading ? 'Processing…' : 'Choose file'}]
   . *)
Definition chooserLabel (st : PageState) : string :=
  if uploading st then "Processing…" else "Choose file".

(** A [Profile] as the JavaScript object it is. *)
Definition profileObject (p : Profile) : Json :=
  JObj [ ("fullName", JStr (fullName p)); ("skills", JArr (JStr <$> skills p)) ].


(* ===================================================================== *)
(** ** app/(auth)/login/page.tsx and the organizer dashboard *)
(* ===================================================================== *)

(** The [error] and [loading] cells of [LoginPage]. *)
Record LoginForm : Type := mkLoginForm {
  login_error : JsVal;
  login_loading : bool;
}.

(** The seven inputs of the "Create event" form. *)
Record EventForm : Type := mkEventForm {
  form_title : string;
  form_description : string;
  form_location : string;
  form_startsAt : string;
  form_endsAt : string;
  form_rsvpDeadline : string;
  form_capacity : string;
}.

Definition emptyForm : EventForm :=
  {| form_title := ""; form_description := ""; form_location := ""; form_startsAt := "";
     form_endsAt := ""; form_rsvpDeadline := ""; form_capacity := "" |}.

(** The cells of [OrganizerDashboardPage]: the inputs, [loading], [error]
    and [created] ([{ eventId, joinCode }] or [null]). *)
Record OrganizerPage : Type := mkOrganizerPage {
  form : EventForm;
  org_loading : bool;
  org_error : JsVal;
  org_created : option (JsVal * JsVal);
}.

(** [typeof err.detail === 'string' ? err.detail
      : (err.detail as { message?: string })?.message ?? 'Failed to create event'] *)
Definition createErrorText (err : ApiError) : Json :=
  match detail err with
  | JStr s => JStr s
  | d => match prop "message" d with
         | Some m => if nullish (Some m) then JStr "Failed to create event" else m
         | None => JStr "Failed to create event"
         end
  end.

Section Forms.
Variables (API_BASE API_PREFIX : string).
Variable JSON_parse : string -> option Json.
Variable fetch : Request -> FetchOutcome.
Variable isZero : string -> bool.
Variable toStr : Json -> string.
Variables trim toLowerCase : string -> string.
Variable JSON_stringify : Json -> string.

(**
<<
  async function handleSubmit(e: React.FormEvent) {
    e.preventDefault();
    setError('');
    setLoading(true);
    try {
      const result = await login(email, password);
      if (!result.ok) setError(result.error ?? 'Login failed');
    } finally {
      setLoading(false);
    }
  }
>>
    The cells once the handler has ended, and the exception it ended with,
    if any. *)
Definition LoginPage_handleSubmit (email password : string) : LoginForm * option Thrown :=
  match login API_BASE API_PREFIX JSON_parse fetch isZero trim toLowerCase JSON_stringify
          email password with
  | Return (result, _) =>
      ({| login_error :=
            if result_ok result then Some (JStr "")
            else if nullish (result_error result) then Some (JStr "Login failed")
                 else result_error result;
          login_loading := false |},
       None)
  | Throw e => ({| login_error := Some (JStr ""); login_loading := false |}, Some e)
  end.

(** [createEvent] of [lib/organizer-api.ts]:
<<
  return apiRequest<EventCreatedOut>('/events', {
    method: 'POST', token, body: JSON.stringify(payload),
  });
>>
    [body] is the text [JSON.stringify(payload)]. *)
Definition createEvent (tok : option string) (body : string) : Completion ApiResult :=
  apiRequest API_BASE API_PREFIX JSON_parse fetch "/events" (post tok (Some body)).

(**
<<
  async function handleCreate(e: React.FormEvent) {
    e.preventDefault();
    setError(null);
    setCreated(null);
    if (!title.trim()) {
      setError('Title is required.');
      return;
    }
    setLoading(true);
    const { data, error: err } = await createEvent(accessToken, { .. });
    setLoading(false);
    if (err) {
      setError(typeof err.detail === 'string' ? err.detail : .. ?? 'Failed to create event');
      return;
    }
    if (data) {
      setCreated({ eventId: data.event_id, joinCode: data.join_code });
      setTitle(''); setDescription(''); setLocation(''); setStartsAt('');
      setEndsAt(''); setRsvpDeadline(''); setCapacity('');
    }
  }
>>
    [payload] is the text of the payload built from the inputs, or the
    exception raised while building it ([toISOString] of an invalid date).
    The result is the cells once the handler has ended, and the exception it
    ended with, if any. *)
Definition handleCreate (accessToken : JsVal) (payload : Completion string)
    (st : OrganizerPage) : OrganizerPage * option Thrown :=
  if bool_decide (trim (form_title (form st)) = "") then
    ({| form := form st; org_loading := org_loading st;
        org_error := Some (JStr "Title is required."); org_created := None |},
     None)
  else
    match body ← payload; createEvent (tokenOption isZero toStr accessToken) body with
    | Throw e =>
        ({| form := form st; org_loading := true;
            org_error := Some JNull; org_created := None |},
         Some e)
    | Return (Error err) =>
        ({| form := form st; org_loading := false;
            org_error := Some (createErrorText err); org_created := None |},
         None)
    | Return (Data d) =>
        match d with
        | Some v =>
            if truthy isZero d then
              ({| form := emptyForm; org_loading := false; org_error := Some JNull;
                  org_created := Some (prop "event_id" v, prop "join_code" v) |},
               None)
            else
              ({| form := form st; org_loading := false;
                  org_error := Some JNull; org_created := None |},
               None)
        | None =>
            ({| form := form st; org_loading := false;
                org_error := Some JNull; org_created := None |},
             None)
        end
    end.
End Forms.

(** A filled-in form, and a server that accepts the event. *)
Definition filledForm : EventForm :=
  {| form_title := "Rust meetup"; form_description := "Monthly"; form_location := "";
     form_startsAt := ""; form_endsAt := ""; form_rsvpDeadline := ""; form_capacity := "" |}.

Definition organizerIdle : OrganizerPage :=
  {| form := filledForm; org_loading := false; org_error := Some JNull; org_created := None |}.

Definition createdFetch (req : Request) : FetchOutcome :=
  Resolves {| status := 200; statusText := "OK"; body := BodyText "created" |}.
Definition createdParse (t : string) : option Json :=
  if bool_decide (t = "created")
  then Some (JObj [("event_id", JStr "e1"); ("join_code", JStr "J0IN")])
  else None.

(* ===================================================================== *)
(** * Properties *)
(* ===================================================================== *)

(** ** The three shapes of a call to [handleFile] *)

Lemma handleFile_busy (file : option File) : handleFile true file = [].
Proof. by destruct file. Qed.

Lemma handleFile_accepted (f : File) :
  includes allowed (file_type f) = true -> handleFile false (Some f) = fullRun.
Proof. intros H. unfold handleFile. by rewrite H. Qed.

Lemma handleFile_rejected (f : File) :
  includes allowed (file_type f) = false ->
  handleFile false (Some f) = [setUploadError (Some "Please upload a PDF or DOCX file.")].
Proof. intros H. unfold handleFile. by rewrite H. Qed.

Lemma handleFile_cases (u : bool) (file : option File) :
  handleFile u file = []
  \/ handleFile u file = [setUploadError (Some "Please upload a PDF or DOCX file.")]
  \/ handleFile u file = fullRun.
Proof.
  destruct file as [f|]; [|by left].
  destruct u; [by left|].
  destruct (includes allowed (file_type f)) eqn:E.
  - right; right. by apply handleFile_accepted.
  - right; left. by apply handleFile_rejected.
Qed.

(** [handleFile] looks at nothing but the mime type of the file. *)
Lemma handleFile_type_only (u : bool) (f g : File) :
  file_type f = file_type g -> handleFile u (Some f) = handleFile u (Some g).
Proof. intros E. unfold handleFile. by rewrite E. Qed.

(** No call sends a request to the backend. *)
Lemma handleFile_no_request (u : bool) (file : option File) :
  requests (handleFile u file) = [].
Proof. by destruct (handleFile_cases u file) as [-> | [-> | ->]]. Qed.

(** No call writes ['failed']. *)
Lemma handleFile_never_failed (u : bool) (file : option File) :
  failed ∉ statesWritten (handleFile u file).
Proof.
  destruct (handleFile_cases u file) as [-> | [-> | ->]]; compute_done.
Qed.

Lemma before_chain : StronglySorted before [uploaded; scanned; parsed].
Proof.
  repeat (constructor; [|repeat (constructor; try (unfold before; cbn; lia))]).
  constructor.
Qed.

Example handleFile_pdf :
  statesWritten (handleFile false (Some sample_pdf)) = [uploaded; scanned; parsed].
Proof. reflexivity. Qed.

Example handleFile_png :
  handleFile false (Some sample_png)
  = [setUploadError (Some "Please upload a PDF or DOCX file.")].
Proof. reflexivity. Qed.

Example statusLine_failed (e : option string) (u : bool) :
  statusLine {| resumeState := Some failed; uploadError := e; uploading := u |}
  = Some ("Failed", Some "You can re-upload. Your last successful resume remains active.").
Proof. reflexivity. Qed.

(** ** Unsupported formats *)

(** C1, as the code has it: a file whose mime type is neither PDF nor DOCX,
    handed over while no upload is in progress, is turned down before the
    first suspension point. The handler writes the error message and nothing
    else: the resume state shown and the [uploading] flag stay as they were,
    and no request reaches the backend, so no record is created. *)
Theorem unsupported_type_rejected_when_idle (u : bool) (f : File) (st : PageState) :
  u = false ->
  includes allowed (file_type f) = false ->
  rejectedWith "Please upload a PDF or DOCX file." (handleFile u (Some f)) st.
Proof.
  intros -> H. rewrite (handleFile_rejected f H).
  by repeat split.
Qed.

Lemma unsupported_type_rejected_when_idle_witness :
  false = false /\ includes allowed (file_type sample_png) = false
  /\ rejectedWith "Please upload a PDF or DOCX file."
       (handleFile false (Some sample_png)) initialPage.
Proof.
  split; [reflexivity|]. split; [reflexivity|].
  apply (unsupported_type_rejected_when_idle false sample_png initialPage); reflexivity.
Defined.

(** While an upload is in progress the same file is dropped without any error
    message: the [uploading] test comes first. *)
Lemma busy_page_ignores_png :
  includes allowed (file_type sample_png) = false
  /\ errorsWritten (handleFile true (Some sample_png)) = []
  /\ uploadError (run (handleFile true (Some sample_png)) busyPage) = None
  /\ ~ rejectedWith "Please upload a PDF or DOCX file."
         (handleFile true (Some sample_png)) busyPage.
Proof.
  repeat split; try reflexivity.
  intros [H _]. cbn in H. discriminate H.
Qed.

(** ** Order of the states *)

(** C2: within one call of the handler the resume state only moves forward.
    The states it writes, and the states the page shows from its first
    suspension point to its end, are strictly increasing in pipeline order
    (uploaded, then scanned, then parsed or failed); so none occurs twice. *)
Theorem resume_state_only_moves_forward (u : bool) (file : option File) (st : PageState) :
  StronglySorted before (statesWritten (handleFile u file))
  /\ NoDup (statesWritten (handleFile u file))
  /\ StronglySorted before (omap resumeState (renders (handleFile u file) st))
  /\ NoDup (omap resumeState (renders (handleFile u file) st)).
Proof.
  destruct (handleFile_cases u file) as [-> | [-> | ->]]; cbn.
  - destruct (resumeState st); cbn; repeat split; repeat constructor; compute_done.
  - destruct (resumeState st); cbn; repeat split; repeat constructor; compute_done.
  - repeat split; try apply before_chain; compute_done.
Qed.

(** ** The set of states *)

(** C3, as the code has it: a resume state is one of four values, uploaded,
    scanned, parsed or failed, and a successful run writes exactly uploaded,
    then scanned, then parsed: one state per completed stage, in this order,
    with no state for a stage in progress. *)
Theorem four_states_and_three_steps (f : File) :
  includes allowed (file_type f) = true ->
  (forall s : ResumeState, s ∈ ResumeState_values)
  /\ NoDup ResumeState_values
  /\ length ResumeState_values = 4
  /\ statesWritten (handleFile false (Some f)) = [uploaded; scanned; parsed]
  /\ specName <$> statesWritten (handleFile false (Some f)) = [UPLOADED; SCANNED; PARSED].
Proof.
  intros H. rewrite (handleFile_accepted f H).
  split; [intros []; compute_done|].
  split; [compute_done|]. by repeat split.
Qed.

Lemma four_states_and_three_steps_witness :
  includes allowed (file_type sample_pdf) = true
  /\ ((forall s : ResumeState, s ∈ ResumeState_values)
      /\ NoDup ResumeState_values
      /\ length ResumeState_values = 4
      /\ statesWritten (handleFile false (Some sample_pdf)) = [uploaded; scanned; parsed]
      /\ specName <$> statesWritten (handleFile false (Some sample_pdf))
         = [UPLOADED; SCANNED; PARSED]).
Proof.
  split; [reflexivity|].
  apply (four_states_and_three_steps sample_pdf). reflexivity.
Defined.

(** A successful run of a PDF goes through none of SCANNING, EXTRACTING and
    PARSING, whatever name of the code they are looked up under. *)
Lemma successful_run_skips_in_progress_states :
  includes allowed (file_type sample_pdf) = true
  /\ resumeState (run (handleFile false (Some sample_pdf)) initialPage) = Some parsed
  /\ (SCANNING ∉ specName <$> statesWritten (handleFile false (Some sample_pdf)))
  /\ (EXTRACTING ∉ specName <$> statesWritten (handleFile false (Some sample_pdf)))
  /\ (PARSING ∉ specName <$> statesWritten (handleFile false (Some sample_pdf)))
  /\ SCANNING ∉ specName <$> ResumeState_values.
Proof. repeat split; compute_done. Qed.

(** ** Content of the file *)

(** What an accepted run comes to, from any page. *)
Lemma run_fullRun (st : PageState) :
  run fullRun st = {| resumeState := Some parsed; uploadError := None; uploading := false |}.
Proof. reflexivity. Qed.

(** C4, as the code has it: the handler scans nothing. An accepted document
    whose bytes a malware scanner would reject still runs to parsed; the
    handler never writes failed and sets no error, runs each stage once (no
    retry), and sends no request, so no ExtractedProfile is created. *)
Theorem scan_verdict_plays_no_part
    (scan : list N -> Verdict) (reason : string) (f : File) (st : PageState) :
  includes allowed (file_type f) = true ->
  scan (file_bytes f) = Rejected reason ->
  resumeState (run (handleFile false (Some f)) st) = Some parsed
  /\ uploadError (run (handleFile false (Some f)) st) = None
  /\ (failed ∉ statesWritten (handleFile false (Some f)))
  /\ NoDup (statesWritten (handleFile false (Some f)))
  /\ requests (handleFile false (Some f)) = [].
Proof.
  intros H _. rewrite (handleFile_accepted f H), run_fullRun.
  repeat split; compute_done.
Qed.

Lemma scan_verdict_plays_no_part_witness :
  includes allowed (file_type infected_pdf) = true
  /\ signatureScan eicar (file_bytes infected_pdf) = Rejected "signature match"
  /\ (resumeState (run (handleFile false (Some infected_pdf)) initialPage) = Some parsed
      /\ uploadError (run (handleFile false (Some infected_pdf)) initialPage) = None
      /\ (failed ∉ statesWritten (handleFile false (Some infected_pdf)))
      /\ NoDup (statesWritten (handleFile false (Some infected_pdf)))
      /\ requests (handleFile false (Some infected_pdf)) = []).
Proof.
  split; [reflexivity|]. split; [reflexivity|].
  apply (scan_verdict_plays_no_part (signatureScan eicar) "signature match"
           infected_pdf initialPage); reflexivity.
Defined.

(** A PDF that the signature scanner rejects is accepted by the handler and
    ends parsed, not failed, with no error. *)
Lemma infected_pdf_ends_parsed :
  accepts false infected_pdf = true
  /\ signatureScan eicar (file_bytes infected_pdf) = Rejected "signature match"
  /\ resumeState (run (handleFile false (Some infected_pdf)) initialPage) = Some parsed
  /\ resumeState (run (handleFile false (Some infected_pdf)) initialPage) <> Some failed
  /\ uploadError (run (handleFile false (Some infected_pdf)) initialPage) = None.
Proof. repeat split; try reflexivity. discriminate. Qed.

(** ** The active resume *)

Lemma runWorld_no_request {Server : Type} (serve : ApiCall -> Server -> Server)
    (cs : list Cmd) (st : PageState) (sv : Server) :
  requests cs = [] -> runWorld serve cs (st, sv) = (run cs st, sv).
Proof.
  revert st. induction cs as [|c cs IH]; intros st H; [done|].
  destruct c; try discriminate H; apply (IH _ H).
Qed.

(** C5, as the code has it: no call of the upload handler changes anything on
    the backend, so the owner's active resume pointer is the same after a run
    as before it, however the run ends; and no run ends in failed. *)
Theorem handler_never_moves_active_resume {Server Id : Type}
    (serve : ApiCall -> Server -> Server) (active_profile : Server -> option Id)
    (u : bool) (file : option File) (st : PageState) (sv : Server) :
  (runWorld serve (handleFile u file) (st, sv)).2 = sv
  /\ active_profile (runWorld serve (handleFile u file) (st, sv)).2 = active_profile sv
  /\ (runWorld serve (handleFile u file) (st, sv)).1 = run (handleFile u file) st
  /\ failed ∉ statesWritten (handleFile u file).
Proof.
  rewrite (runWorld_no_request serve _ st sv (handleFile_no_request u file)).
  repeat split. apply handleFile_never_failed.
Qed.

(** The toy backend does move its pointer when an upload request reaches it. *)
Example sampleServe_upload :
  active (sampleServe {| call_method := "POST"; call_path := "/resumes" |}
            serverWithResume1) = Some 2.
Proof. reflexivity. Qed.

(** A re-upload that reaches parsed leaves the pointer on the old resume, and
    no new resume id has been handed out. *)
Lemma parsed_reupload_keeps_old_pointer :
  resumeState (runWorld sampleServe (handleFile false (Some sample_pdf))
                 (parsedPage, serverWithResume1)).1 = Some parsed
  /\ active serverWithResume1 = Some 1
  /\ active (runWorld sampleServe (handleFile false (Some sample_pdf))
               (parsedPage, serverWithResume1)).2 = Some 1
  /\ nextId (runWorld sampleServe (handleFile false (Some sample_pdf))
               (parsedPage, serverWithResume1)).2 = nextId serverWithResume1.
Proof. by split_and!. Qed.

(** ** One upload at a time *)

Lemma idleOrSingle_init : idleOrSingle initialConfig.
Proof. by left. Qed.

Lemma step_choose_busy (c : Config) (f : File) :
  closure c = true -> step c (choose f) = c.
Proof.
  destruct c as [st cl infl]; cbn. intros ->; cbn.
  by rewrite app_nil_r.
Qed.

Lemma idleOrSingle_step (c : Config) (e : Event) :
  idleOrSingle c -> idleOrSingle (step c e).
Proof.
  intros Hc. destruct e as [f | i |].
  - (* a file is handed over *)
    destruct (closure c) eqn:Hcl.
    { by rewrite step_choose_busy. }
    destruct Hc as [[Hin Hup] | (k & _ & _ & Hcl' & _)]; [|congruence].
    destruct c as [st cl infl]; cbn in *; subst.
    destruct (includes allowed (file_type f)); cbn.
    + right. exists afterUpload. split_and!; try done. by left.
    + by left.
  - (* a timer fires *)
    destruct Hc as [[Hin Hup] | (k & Hin & Hup & Hcl & Hk)].
    + destruct c as [st cl infl]; cbn in *; subst. by left.
    + destruct c as [st cl infl]; cbn in *; subst.
      destruct i as [|i]; cbn; [|right; exists k; by split_and!].
      destruct Hk as [[-> Hst] | [-> Hst]]; cbn.
      * right. exists afterScan. split_and!; try done. by right.
      * by left.
  - (* React renders *)
    destruct Hc as [[Hin Hup] | (k & Hin & Hup & Hcl & Hk)].
    + by left.
    + right. exists k. destruct c; cbn in *. by split_and!.
Qed.

Lemma reachable_idleOrSingle (c : Config) : reachable c -> idleOrSingle c.
Proof.
  induction 1 as [|c e _ IH]; [apply idleOrSingle_init | by apply idleOrSingle_step].
Qed.

(** While a call is suspended, a firing timer moves the page strictly forward
    in pipeline order. *)
Lemma timer_moves_forward (c : Config) (i : nat) :
  reachable c ->
  step c (timer i) = c
  \/ exists s t, resumeState (page c) = Some s
                 /\ resumeState (page (step c (timer i))) = Some t
                 /\ before s t.
Proof.
  intros Hc. apply reachable_idleOrSingle in Hc.
  destruct Hc as [[Hin Hup] | (k & Hin & Hup & Hcl & Hk)];
    destruct c as [st cl infl]; cbn in *; subst; [by left|].
  destruct i as [|i]; cbn; [|by left]. right.
  destruct Hk as [[-> Hst] | [-> Hst]]; cbn; rewrite Hst.
  - exists uploaded, scanned. repeat split. unfold before; cbn; lia.
  - exists scanned, parsed. repeat split. unfold before; cbn; lia.
Qed.

(** From a reachable state whose attached handler has seen the flag down, an
    accepted file takes the page to parsed in three tasks: the call itself and
    its two timers; nothing is left in flight. *)
Lemma accepted_upload_completes (c : Config) (f : File) :
  reachable c -> closure c = false ->
  includes allowed (file_type f) = true ->
  step (step (step c (choose f)) (timer 0)) (timer 0)
  = {| page := parsedPage; closure := true; inflight := [] |}.
Proof.
  intros Hc Hcl Hf. apply reachable_idleOrSingle in Hc.
  destruct Hc as [[Hin Hup] | (k & _ & _ & Hcl' & _)]; [|congruence].
  destruct c as [st cl infl]; cbn in *; subst.
  by rewrite Hf.
Qed.

(** C6: at most one run of the pipeline is in flight at any time. In every
    state the page can reach, at most one call of the handler is suspended;
    and handing over a file while the [uploading] flag is set starts no
    second run and changes nothing: the call performs no command at all. *)
Theorem at_most_one_upload_in_flight (c : Config) (f : File) :
  reachable c ->
  length (inflight c) <= 1
  /\ (uploading (page c) = true ->
        handleFile (closure c) (Some f) = [] /\ step c (choose f) = c).
Proof.
  intros Hc. apply reachable_idleOrSingle in Hc.
  destruct Hc as [[Hin Hup] | (k & Hin & Hup & Hcl & Hk)].
  - rewrite Hin, Hup. split; [cbn; lia | discriminate].
  - rewrite Hin. split; [cbn; lia|]. intros _.
    rewrite Hcl. split; [apply handleFile_busy | by apply step_choose_busy].
Qed.

Lemma at_most_one_upload_in_flight_witness :
  reachable (step initialConfig (choose sample_pdf))
  /\ (length (inflight (step initialConfig (choose sample_pdf))) <= 1
      /\ (uploading (page (step initialConfig (choose sample_pdf))) = true ->
            handleFile (closure (step initialConfig (choose sample_pdf))) (Some sample_pdf) = []
            /\ step (step initialConfig (choose sample_pdf)) (choose sample_pdf)
               = step initialConfig (choose sample_pdf))).
Proof.
  assert (H : reachable (step initialConfig (choose sample_pdf)))
    by (apply reachable_step, reachable_init).
  split; [exact H|].
  apply (at_most_one_upload_in_flight _ sample_pdf H).
Defined.

Example one_run_in_flight_after_choose :
  step initialConfig (choose sample_pdf)
  = {| page := busyPage; closure := true; inflight := [afterUpload] |}.
Proof. reflexivity. Qed.

(** ** The extracted profile *)

(** A skill that is not a string makes the whole profile invalid. *)
Lemma ProfileSchema_rejects_non_string_skill
    (fields : list (string * Json)) (items : list Json) (v : Json) :
  field "skills" fields = Some (JArr items) ->
  v ∈ items -> zString v = None ->
  ProfileSchema (JObj fields) = None.
Proof.
  intros Hs Hv Hz. unfold ProfileSchema. rewrite Hs.
  assert (mapM zString items = None) as ->.
  { apply mapM_None, Exists_exists. by exists v. }
  destruct (field "fullName" fields ≫= zString) as [name|]; cbn; [|done].
  by destruct (guard (1 <= String.length name)).
Qed.

(** Skills given as strings are kept as they are. *)
Lemma ProfileSchema_keeps_string_skills
    (fields : list (string * Json)) (name : string) (l : list string) :
  field "fullName" fields = Some (JStr name) -> 1 <= String.length name ->
  field "skills" fields = Some (JArr (JStr <$> l)) ->
  ProfileSchema (JObj fields) = Some {| fullName := name; skills := l |}.
Proof.
  intros Hn Hlen Hs. unfold ProfileSchema. rewrite Hn, Hs. cbn.
  rewrite (option_guard_True (1 <= String.length name)) by done. cbn.
  assert (mapM zString (JStr <$> l) = Some l) as ->; [|done].
  apply mapM_Some. clear Hs. induction l; cbn; by constructor.
Qed.

(** Without a [skills] key the default applies. *)
Example ProfileSchema_default_skills :
  ProfileSchema (JObj [("fullName", JStr "Ada Example")])
  = Some {| fullName := "Ada Example"; skills := [] |}.
Proof. reflexivity. Qed.

(** C7, as the code has it: a DOCX handed to the upload handler, whatever its
    text, ends in state parsed, and that is all the run produces: the handler
    sends no request and builds no profile. In the repository's profile schema
    a skill is a plain string: Python and FastAPI are valid as strings, and a
    profile whose skills carry a confidence does not validate. *)
Theorem docx_ends_parsed_without_profile (f : File) (st : PageState) (c1 c2 : Json) :
  file_type f = docx ->
  resumeState (run (handleFile false (Some f)) st) = Some parsed
  /\ requests (handleFile false (Some f)) = []
  /\ handleFile false (Some f) = fullRun
  /\ (skills <$> ProfileSchema plainSkills) = Some ["Python"; "FastAPI"]
  /\ ProfileSchema (scoredSkills c1 c2) = None.
Proof.
  intros Ht.
  assert (H : includes allowed (file_type f) = true) by (by rewrite Ht).
  rewrite (handleFile_accepted f H), run_fullRun.
  split_and!; [done..|].
  apply (ProfileSchema_rejects_non_string_skill _
           [scoredSkill "Python" c1; scoredSkill "FastAPI" c2] (scoredSkill "Python" c1));
    [reflexivity | by left | reflexivity].
Qed.

Lemma docx_ends_parsed_without_profile_witness :
  file_type skills_docx = docx
  /\ (resumeState (run (handleFile false (Some skills_docx)) initialPage) = Some parsed
      /\ requests (handleFile false (Some skills_docx)) = []
      /\ handleFile false (Some skills_docx) = fullRun
      /\ (skills <$> ProfileSchema plainSkills) = Some ["Python"; "FastAPI"]
      /\ ProfileSchema (scoredSkills (JNum "0.9") (JNum "0.8")) = None).
Proof.
  split; [reflexivity|].
  apply (docx_ends_parsed_without_profile skills_docx initialPage (JNum "0.9") (JNum "0.8")).
  reflexivity.
Defined.

(** The run of the scenario's document is the eight commands of [fullRun]:
    none of them is a request and none carries a profile; and a profile
    listing Python and FastAPI with confidences 0.9 and 0.8 is not a valid
    [Profile]. *)
Lemma skills_docx_yields_no_profile :
  file_type skills_docx = docx
  /\ handleFile false (Some skills_docx) = fullRun
  /\ requests (handleFile false (Some skills_docx)) = []
  /\ ProfileSchema (scoredSkills (JNum "0.9") (JNum "0.8")) = None.
Proof. by split_and!. Qed.

(** ** Size of the file *)

(** C8, as the code has it: the handler sets no byte ceiling. A
    submission above any ceiling is treated as its mime type alone demands:
    a PDF or DOCX is accepted, no error is set and the run ends parsed;
    anything else is rejected at once with the unsupported-format message,
    no record created. Two files of one mime type get the same commands. *)
Theorem byte_size_is_not_checked (ceiling : N) (f : File) (st : PageState) :
  (ceiling < file_size f)%N ->
  (includes allowed (file_type f) = true ->
     errorsWritten (handleFile false (Some f)) = [None]
     /\ uploadError (run (handleFile false (Some f)) st) = None
     /\ resumeState (run (handleFile false (Some f)) st) = Some parsed)
  /\ (includes allowed (file_type f) = false ->
        rejectedWith "Please upload a PDF or DOCX file." (handleFile false (Some f)) st)
  /\ (forall (u : bool) (g : File),
        file_type g = file_type f -> handleFile u (Some g) = handleFile u (Some f)).
Proof.
  intros _. split_and!.
  - intros H. by rewrite (handleFile_accepted f H), run_fullRun.
  - intros H. rewrite (handleFile_rejected f H). by repeat split.
  - intros u g E. by apply handleFile_type_only.
Qed.

Lemma byte_size_is_not_checked_witness :
  (ceiling10MiB < file_size oversized_pdf)%N
  /\ ((includes allowed (file_type oversized_pdf) = true ->
         errorsWritten (handleFile false (Some oversized_pdf)) = [None]
         /\ uploadError (run (handleFile false (Some oversized_pdf)) initialPage) = None
         /\ resumeState (run (handleFile false (Some oversized_pdf)) initialPage) = Some parsed)
      /\ (includes allowed (file_type oversized_pdf) = false ->
            rejectedWith "Please upload a PDF or DOCX file."
              (handleFile false (Some oversized_pdf)) initialPage)
      /\ (forall (u : bool) (g : File),
            file_type g = file_type oversized_pdf ->
            handleFile u (Some g) = handleFile u (Some oversized_pdf))).
Proof.
  split; [reflexivity|].
  apply (byte_size_is_not_checked ceiling10MiB oversized_pdf initialPage). reflexivity.
Defined.

(** A PDF above a ceiling of 10 MiB goes through: no error message, an
    upload is started at once, and the run ends parsed. *)
Lemma oversized_pdf_is_accepted :
  (ceiling10MiB < file_size oversized_pdf)%N
  /\ errorsWritten (handleFile false (Some oversized_pdf)) = [None]
  /\ (resume (handleFile false (Some oversized_pdf)) initialPage).1 = busyPage
  /\ resumeState (run (handleFile false (Some oversized_pdf)) initialPage) = Some parsed
  /\ uploadError (run (handleFile false (Some oversized_pdf)) initialPage) = None.
Proof. by split_and!. Qed.

(** ** Accepted files *)

(** C9, as the code has it: for every file whose mime type is PDF or DOCX,
    handed over while no upload is in progress, the handler writes exactly
    uploaded, scanned, parsed, shows them in this order and ends in parsed
    with the [uploading] flag down; the content of the file plays no part;
    and no call of the handler, accepted or not, ever writes failed. *)
Theorem accepted_file_always_ends_parsed (u : bool) (f : File) (st : PageState) :
  u = false ->
  includes allowed (file_type f) = true ->
  statesWritten (handleFile u (Some f)) = [uploaded; scanned; parsed]
  /\ resumeState <$> renders (handleFile u (Some f)) st
     = [Some uploaded; Some scanned; Some parsed]
  /\ run (handleFile u (Some f)) st
     = {| resumeState := Some parsed; uploadError := None; uploading := false |}
  /\ (forall g : File, file_type g = file_type f ->
        handleFile u (Some g) = handleFile u (Some f))
  /\ (forall (v : bool) (file : option File), failed ∉ statesWritten (handleFile v file)).
Proof.
  intros -> H. split_and!.
  - by rewrite (handleFile_accepted f H).
  - by rewrite (handleFile_accepted f H).
  - by rewrite (handleFile_accepted f H).
  - intros g E. by apply handleFile_type_only.
  - apply handleFile_never_failed.
Qed.

Lemma accepted_file_always_ends_parsed_witness :
  false = false /\ includes allowed (file_type sample_pdf) = true
  /\ (statesWritten (handleFile false (Some sample_pdf)) = [uploaded; scanned; parsed]
      /\ resumeState <$> renders (handleFile false (Some sample_pdf)) initialPage
         = [Some uploaded; Some scanned; Some parsed]
      /\ run (handleFile false (Some sample_pdf)) initialPage
         = {| resumeState := Some parsed; uploadError := None; uploading := false |}
      /\ (forall g : File, file_type g = file_type sample_pdf ->
            handleFile false (Some g) = handleFile false (Some sample_pdf))
      /\ (forall (v : bool) (file : option File),
            failed ∉ statesWritten (handleFile v file))).
Proof.
  split; [reflexivity|]. split; [reflexivity|].
  apply (accepted_file_always_ends_parsed false sample_pdf initialPage); reflexivity.
Defined.

(** A PDF handed over while another upload is in progress: the call writes
    no state at all and returns with the page still showing uploaded. *)
Lemma busy_page_ignores_pdf :
  includes allowed (file_type sample_pdf) = true
  /\ page (step initialConfig (choose sample_pdf)) = busyPage
  /\ closure (step initialConfig (choose sample_pdf)) = true
  /\ statesWritten (handleFile true (Some sample_pdf)) = []
  /\ resumeState (run (handleFile true (Some sample_pdf)) busyPage) = Some uploaded.
Proof. split_and!; try reflexivity. Qed.

(** ** The API client *)

Section ApiClientProperties.
Variables (API_BASE API_PREFIX : string).
Variable JSON_parse : string -> option Json.
Variable fetch : Request -> FetchOutcome.

Local Abbreviation request := (apiRequest API_BASE API_PREFIX JSON_parse fetch).
Local Abbreviation built := (requestOf API_BASE API_PREFIX).
Local Abbreviation parsed_body := (parseResponse JSON_parse).


(** The caller's [Content-Type] wins over the default. *)
Lemma requestOf_content_type (path : string) (options : Options) :
  headers (built path options) !! "Content-Type"
  = Some (default "application/json" (optHeaders options !! "Content-Type")).
Proof.
  unfold requestOf; cbn.
  assert (H : (optHeaders options ∪ {["Content-Type" := "application/json"]})
                !! "Content-Type"
              = Some (default "application/json" (optHeaders options !! "Content-Type"))).
  { destruct (optHeaders options !! "Content-Type") as [v|] eqn:E.
    - by rewrite (lookup_union_Some_l _ _ _ _ E).
    - rewrite lookup_union_r by done. by rewrite lookup_singleton_eq. }
  destruct (bearer (token options)); [|done].
  by rewrite lookup_insert_ne.
Qed.

(** A rejected [fetch] comes back as an error value with status code 0. *)
Lemma apiRequest_network_failure (path : string) (options : Options) (err : Thrown) :
  fetch (built path options) = Rejects err ->
  request path options
  = Return (Error {| detail := JStr ("Network error. Check API URL and CORS settings. ("
                                      ++ messageOf err ++ ")");
                     statusCode := 0 |}).
Proof. intros H. unfold apiRequest. by rewrite H. Qed.

(** A response outside 200-299 whose body can be read comes back as an
    error value with the body's [detail], or the status text, and the
    response's status code. *)
Lemma apiRequest_http_error (path : string) (options : Options)
    (res : Response) (data : option Json) :
  fetch (built path options) = Resolves res ->
  parsed_body res = Return data ->
  ok res = false ->
  request path options
  = Return (Error {| detail := detailOf data res; statusCode := status res |}).
Proof.
  intros H Hd Hok. unfold apiRequest. rewrite H, Hd. cbn. by rewrite Hok.
Qed.

Lemma apiRequest_success (path : string) (options : Options)
    (res : Response) (data : option Json) :
  fetch (built path options) = Resolves res ->
  parsed_body res = Return data ->
  ok res = true ->
  request path options = Return (Data data).
Proof.
  intros H Hd Hok. unfold apiRequest. rewrite H, Hd. cbn. by rewrite Hok.
Qed.

(** [parseResponse] gives a value whenever the body can be read: the empty
    text and text that is not JSON both give [undefined]. *)
Lemma parseResponse_readable (res : Response) (t : string) :
  body res = BodyText t ->
  parsed_body res
  = Return (if bool_decide (t = "") then None else JSON_parse t).
Proof.
  intros H. unfold parseResponse, text. rewrite H. cbn.
  case_bool_decide; [done|]. by destruct (JSON_parse t).
Qed.

(** [parseResponse] rejects when reading the body does. *)
Lemma parseResponse_unreadable (res : Response) (e : Thrown) :
  body res = BodyFails e -> parsed_body res = Throw e.
Proof. intros H. unfold parseResponse, text. by rewrite H. Qed.

(** As long as the body of the response can be read, [apiRequest] returns a
    value, [{ data }] or [{ error }]. *)
Lemma apiRequest_returns_when_body_readable (path : string) (options : Options) :
  (forall res, fetch (built path options) = Resolves res ->
               exists t, body res = BodyText t) ->
  exists r, request path options = Return r.
Proof.
  intros Hbody. destruct (fetch (built path options)) as [res|err] eqn:H.
  - destruct (Hbody res eq_refl) as [t Ht].
    pose proof (parseResponse_readable res t Ht) as Hd.
    destruct (ok res) eqn:Hok.
    + eexists. by apply (apiRequest_success _ _ res _ H Hd).
    + eexists. by apply (apiRequest_http_error _ _ res _ H Hd).
  - eexists. by apply apiRequest_network_failure.
Qed.

(** When reading the body fails, the rejection leaves [apiRequest]: the
    [await parseResponse(res)] is outside every [try]. *)
Lemma apiRequest_throws_when_body_fails (path : string) (options : Options)
    (res : Response) (e : Thrown) :
  fetch (built path options) = Resolves res ->
  body res = BodyFails e ->
  request path options = Throw e.
Proof.
  intros H Hb. unfold apiRequest.
  by rewrite H, (parseResponse_unreadable res e Hb).
Qed.

(** The [detail] of an error: the body's, when the body is an object with
    that key; the status text in every other case. *)
Lemma detailOf_body (fields : list (string * Json)) (d : Json) (res : Response) :
  field "detail" fields = Some d -> detailOf (Some (JObj fields)) res = d.
Proof. intros H. cbn. by rewrite H. Qed.

Lemma detailOf_statusText (data : option Json) (res : Response) :
  (forall fields, data = Some (JObj fields) -> field "detail" fields = None) ->
  detailOf data res = JStr (statusText res).
Proof.
  intros H. destruct data as [[]|]; cbn; try done.
  by rewrite (H fields eq_refl).
Qed.
End ApiClientProperties.

(** C10, at the input where the code departs from it: the server answers 200
    and the connection drops while the body is read. [apiRequest] then does
    not return [{ data }] or [{ error }]: it throws the error of the body
    read, where a failure of [fetch] itself on the same request would have
    been returned as an error with status code 0. *)
Theorem apiRequest_throws_on_dropped_body :
  apiRequest "http://localhost:8010" "/v1" sampleParse droppingFetch "/auth/me" noOptions
  = Throw (ErrorObject "network error")
  /\ apiRequest "http://localhost:8010" "/v1" sampleParse
       (fun _ => Rejects (ErrorObject "network error")) "/auth/me" noOptions
     = Return (Error {| detail := JStr "Network error. Check API URL and CORS settings. (network error)";
                        statusCode := 0 |}).
Proof. split; reflexivity. Qed.


(* ===================================================================== *)
(** * Further properties of the code *)
(* ===================================================================== *)

(** ** The profile page between submissions *)

Lemma pageShape_step (c : Config) (e : Event) : pageShape c -> pageShape (step c e).
Proof.
  intros Hc. destruct e as [f | i |].
  - destruct (closure c) eqn:Hcl.
    { by rewrite step_choose_busy. }
    destruct Hc as [(Hin & Hup & Hst) | (k & _ & _ & Hcl' & _)]; [|congruence].
    destruct c as [st cl infl]; cbn in *; subst.
    destruct (includes allowed (file_type f)); cbn.
    + right. exists afterUpload. split_and!; try done. by left.
    + left. by split_and!.
  - destruct Hc as [(Hin & Hup & Hst) | (k & Hin & Hup & Hcl & Herr & Hk)].
    + destruct c as [st cl infl]; cbn in *; subst. left. by split_and!.
    + destruct c as [st cl infl]; cbn in *; subst.
      destruct i as [|i]; cbn; [|right; exists k; by split_and!].
      destruct Hk as [[-> Hst] | [-> Hst]]; cbn.
      * right. exists afterScan. split_and!; try done. by right.
      * left. split_and!; try done. by right.
  - destruct Hc as [(Hin & Hup & Hst) | (k & Hin & Hup & Hcl & Herr & Hk)].
    + left. by split_and!.
    + right. exists k. destruct c; cbn in *. by split_and!.
Qed.

Lemma reachable_pageShape (c : Config) : reachable c -> pageShape c.
Proof.
  induction 1 as [|c e _ IH]; [left; split_and!; try done; by left | by apply pageShape_step].
Qed.

(** X1: the page never shows a failed resume. In every state it can reach,
    the status line is absent or reads Uploaded, Scanned, or Parsed with
    "Ready for matching."; the line for a failed resume, with its hint about
    re-uploading, is never rendered. *)
Theorem failed_is_never_shown (c : Config) :
  reachable c ->
  resumeState (page c) <> Some failed
  /\ (statusLine (page c) = None
      \/ statusLine (page c) = Some ("Uploaded", None)
      \/ statusLine (page c) = Some ("Scanned", None)
      \/ statusLine (page c) = Some ("Parsed", Some "Ready for matching.")).
Proof.
  intros Hc. apply reachable_pageShape in Hc. unfold statusLine.
  destruct Hc as [(_ & _ & [-> | ->]) | (k & _ & _ & _ & _ & [[_ ->] | [_ ->]])];
    (split; [discriminate|]); cbn; auto.
Qed.

Lemma failed_is_never_shown_witness :
  reachable (step (step initialConfig (choose sample_pdf)) (timer 0))
  /\ (resumeState (page (step (step initialConfig (choose sample_pdf)) (timer 0)))
        <> Some failed
      /\ (statusLine (page (step (step initialConfig (choose sample_pdf)) (timer 0))) = None
          \/ statusLine (page (step (step initialConfig (choose sample_pdf)) (timer 0)))
             = Some ("Uploaded", None)
          \/ statusLine (page (step (step initialConfig (choose sample_pdf)) (timer 0)))
             = Some ("Scanned", None)
          \/ statusLine (page (step (step initialConfig (choose sample_pdf)) (timer 0)))
             = Some ("Parsed", Some "Ready for matching."))).
Proof.
  assert (H : reachable (step (step initialConfig (choose sample_pdf)) (timer 0)))
    by (do 2 apply reachable_step; apply reachable_init).
  split; [exact H|]. apply (failed_is_never_shown _ H).
Defined.

(** X2: the [uploading] flag and what the page shows go together. In every
    reachable state the flag is up exactly when the resume shown is uploaded
    or scanned, that is exactly when the chooser reads "Processing"; and
    while it is up no error message is shown. *)
Theorem flag_matches_display (c : Config) :
  reachable c ->
  (uploading (page c) = true
   <-> resumeState (page c) = Some uploaded \/ resumeState (page c) = Some scanned)
  /\ (chooserLabel (page c) = "Processing…" <-> inflight c <> [])
  /\ (uploading (page c) = true -> uploadError (page c) = None).
Proof.
  intros Hc. apply reachable_pageShape in Hc. unfold chooserLabel.
  destruct Hc as [(Hin & Hup & Hst) | (k & Hin & Hup & _ & Herr & Hk)];
    rewrite Hin, Hup.
  - split_and!; [|split; [discriminate|done]|discriminate].
    split; [discriminate|]. destruct Hst as [-> | ->]; intros [?|?]; discriminate.
  - split_and!; [|done|done].
    split; [|done]. intros _. destruct Hk as [[_ ->] | [_ ->]]; auto.
Qed.

Lemma flag_matches_display_witness :
  reachable (step initialConfig (choose sample_pdf))
  /\ ((uploading (page (step initialConfig (choose sample_pdf))) = true
       <-> resumeState (page (step initialConfig (choose sample_pdf))) = Some uploaded
           \/ resumeState (page (step initialConfig (choose sample_pdf))) = Some scanned)
      /\ (chooserLabel (page (step initialConfig (choose sample_pdf))) = "Processing…"
          <-> inflight (step initialConfig (choose sample_pdf)) <> [])
      /\ (uploading (page (step initialConfig (choose sample_pdf))) = true ->
          uploadError (page (step initialConfig (choose sample_pdf))) = None)).
Proof.
  assert (H : reachable (step initialConfig (choose sample_pdf)))
    by (apply reachable_step, reachable_init).
  split; [exact H|]. apply (flag_matches_display _ H).
Defined.

(** X3: an accepted file always gets through. From any reachable state with
    no upload in progress, once React has rendered, handing over a PDF or
    DOCX and letting its two timers fire leaves the page showing parsed, with
    no error message, the flag down and nothing in flight, whatever was shown
    before (an earlier result or an error). *)
Theorem idle_page_completes_upload (c : Config) (f : File) :
  reachable c ->
  uploading (page c) = false ->
  includes allowed (file_type f) = true ->
  reachable (step (step (step (step c render) (choose f)) (timer 0)) (timer 0))
  /\ page (step (step (step (step c render) (choose f)) (timer 0)) (timer 0)) = parsedPage
  /\ inflight (step (step (step (step c render) (choose f)) (timer 0)) (timer 0)) = [].
Proof.
  intros Hc Hup Hf.
  split; [by do 4 apply reachable_step|].
  apply reachable_pageShape in Hc.
  destruct Hc as [(Hin & _ & _) | (k & _ & Hup' & _)]; [|congruence].
  destruct c as [st cl infl]; cbn in *; subst. rewrite Hup; cbn.
  by rewrite Hf.
Qed.

Lemma idle_page_completes_upload_witness :
  reachable (step initialConfig (choose sample_png))
  /\ uploading (page (step initialConfig (choose sample_png))) = false
  /\ includes allowed (file_type sample_pdf) = true
  /\ (reachable (step (step (step (step (step initialConfig (choose sample_png)) render)
                               (choose sample_pdf)) (timer 0)) (timer 0))
      /\ page (step (step (step (step (step initialConfig (choose sample_png)) render)
                              (choose sample_pdf)) (timer 0)) (timer 0)) = parsedPage
      /\ inflight (step (step (step (step (step initialConfig (choose sample_png)) render)
                                  (choose sample_pdf)) (timer 0)) (timer 0)) = []).
Proof.
  assert (H : reachable (step initialConfig (choose sample_png)))
    by (apply reachable_step, reachable_init).
  split; [exact H|]. split; [reflexivity|]. split; [reflexivity|].
  apply (idle_page_completes_upload _ sample_pdf H); reflexivity.
Defined.

(** X4: between two submissions the display only moves forward. In a
    reachable state, a timer that fires or a render either leaves the page as
    it is or takes the resume shown to a strictly later stage; neither ever
    changes the error message. *)
Theorem display_only_moves_forward (c : Config) (e : Event) :
  reachable c ->
  (forall f, e <> choose f) ->
  uploadError (page (step c e)) = uploadError (page c)
  /\ (page (step c e) = page c
      \/ exists s t, resumeState (page c) = Some s
                     /\ resumeState (page (step c e)) = Some t
                     /\ before s t).
Proof.
  intros Hc He. apply reachable_pageShape in Hc.
  destruct e as [f | i |]; [by destruct (He f) | | by split; [|left]].
  destruct Hc as [(Hin & Hup & Hst) | (k & Hin & Hup & Hcl & Herr & Hk)];
    destruct c as [st cl infl]; cbn in *; subst; [by split; [|left]|].
  destruct i as [|i]; cbn; [|by split; [|left]].
  destruct Hk as [[-> Hst] | [-> Hst]]; cbn; (split; [done|]); right; rewrite Hst.
  - exists uploaded, scanned. split_and!; try done. unfold before; cbn; lia.
  - exists scanned, parsed. split_and!; try done. unfold before; cbn; lia.
Qed.

Lemma display_only_moves_forward_witness :
  reachable (step initialConfig (choose sample_pdf))
  /\ (forall f, timer 0 <> choose f)
  /\ (uploadError (page (step (step initialConfig (choose sample_pdf)) (timer 0)))
      = uploadError (page (step initialConfig (choose sample_pdf)))
      /\ (page (step (step initialConfig (choose sample_pdf)) (timer 0))
          = page (step initialConfig (choose sample_pdf))
          \/ exists s t,
               resumeState (page (step initialConfig (choose sample_pdf))) = Some s
               /\ resumeState (page (step (step initialConfig (choose sample_pdf)) (timer 0)))
                  = Some t
               /\ before s t)).
Proof.
  assert (H : reachable (step initialConfig (choose sample_pdf)))
    by (apply reachable_step, reachable_init).
  split; [exact H|]. split; [discriminate|].
  apply (display_only_moves_forward _ (timer 0) H). discriminate.
Defined.

(** ** The API client: what a result says about the response *)

Section ApiClientFurther.
Variables (API_BASE API_PREFIX : string).
Variable JSON_parse : string -> option Json.
Variable fetch : Request -> FetchOutcome.

Local Abbreviation request := (apiRequest API_BASE API_PREFIX JSON_parse fetch).
Local Abbreviation built := (requestOf API_BASE API_PREFIX).

Lemma ok_range (res : Response) :
  ok res = true <-> (200 <= status res <= 299)%Z.
Proof. unfold ok. rewrite andb_true_iff, !Z.leb_le. tauto. Qed.

(** Every way [apiRequest] can end, read off the fetch outcome. *)
Lemma apiRequest_outcome (path : string) (options : Options) :
  match fetch (built path options) with
  | Rejects err =>
      request path options
      = Return (Error {| detail := JStr ("Network error. Check API URL and CORS settings. ("
                                          ++ messageOf err ++ ")");
                         statusCode := 0 |})
  | Resolves res =>
      match body res with
      | BodyFails e => request path options = Throw e
      | BodyText t =>
          request path options
          = Return (if ok res
                    then Data (if bool_decide (t = "") then None else JSON_parse t)
                    else Error {| detail := detailOf (if bool_decide (t = "") then None
                                                      else JSON_parse t) res;
                                  statusCode := status res |})
      end
  end.
Proof.
  destruct (fetch (built path options)) as [res|err] eqn:H.
  - destruct (body res) as [t|e] eqn:Hb.
    + pose proof (parseResponse_readable JSON_parse res t Hb) as Hd.
      destruct (ok res) eqn:Hok.
      * by apply (apiRequest_success _ _ _ _ _ _ res _ H Hd).
      * by apply (apiRequest_http_error _ _ _ _ _ _ res _ H Hd).
    + by apply apiRequest_throws_when_body_fails with res.
  - by apply apiRequest_network_failure.
Qed.

(** X5: a result of [apiRequest] tells how the exchange went. [{ data }] is
    returned only for a response with a status from 200 to 299; an
    [{ error }] carries status code 0 and a text for a failed [fetch], and the
    status of the response otherwise, so never a code from 200 to 299. *)
Theorem apiRequest_result_reflects_status
    (path : string) (options : Options) (r : ApiResult) :
  request path options = Return r ->
  match r with
  | Data _ =>
      exists res, fetch (built path options) = Resolves res /\ (200 <= status res <= 299)%Z
  | Error e =>
      ~ (200 <= statusCode e <= 299)%Z
      /\ ((exists err msg, fetch (built path options) = Rejects err
                           /\ statusCode e = 0%Z /\ detail e = JStr msg)
          \/ (exists res, fetch (built path options) = Resolves res
                          /\ statusCode e = status res))
  end.
Proof.
  intros Hr. pose proof (apiRequest_outcome path options) as H.
  destruct (fetch (built path options)) as [res|err].
  - destruct (body res) as [t|e0]; rewrite Hr in H; [|discriminate].
    destruct (ok res) eqn:Hok; injection H as ->.
    + exists res. split; [done|]. by apply ok_range.
    + cbn. split.
      * intros Hrange. apply ok_range in Hrange. congruence.
      * right. by exists res.
  - rewrite Hr in H. injection H as ->. cbn. split; [lia|].
    left. by eexists _, _.
Qed.

(** X6: [apiRequest] throws in one case only, a response whose body cannot
    be read, and then it throws the error of the body read. *)
Theorem apiRequest_throws_only_on_unreadable_body
    (path : string) (options : Options) (e : Thrown) :
  request path options = Throw e
  <-> exists res, fetch (built path options) = Resolves res /\ body res = BodyFails e.
Proof.
  pose proof (apiRequest_outcome path options) as H. split.
  - intros Ht. destruct (fetch (built path options)) as [res|err].
    + destruct (body res) as [t|e0] eqn:Hb; rewrite Ht in H; [discriminate|].
      injection H as ->. by exists res.
    + rewrite Ht in H. discriminate.
  - intros (res & Hf & Hb). by apply apiRequest_throws_when_body_fails with res.
Qed.



(** X9: where the detail of an error comes from when the body does not give
    one. For a response outside 200-299 whose body is empty, is not JSON, or
    is JSON without a [detail] key (an array, a number, [null], an object
    with other keys), the error carries the status text and the status. *)
Theorem error_detail_falls_back_to_status_text
    (path : string) (options : Options) (res : Response) (t : string) :
  fetch (built path options) = Resolves res ->
  ok res = false ->
  body res = BodyText t ->
  (t = "" \/ JSON_parse t = None \/ exists v, JSON_parse t = Some v /\ prop "detail" v = None) ->
  request path options
  = Return (Error {| detail := JStr (statusText res); statusCode := status res |}).
Proof.
  intros Hf Hok Hb Ht. pose proof (apiRequest_outcome path options) as H.
  rewrite Hf, Hb, Hok in H. rewrite H. do 3 f_equal.
  apply detailOf_statusText. intros fields Hd.
  case_bool_decide as Hempty; [done|].
  destruct Ht as [-> | [Hp | (v & Hv & Hnone)]]; [done | congruence |].
  rewrite Hv in Hd. injection Hd as ->. exact Hnone.
Qed.
End ApiClientFurther.

Lemma apiRequest_result_reflects_status_witness :
  apiRequest "" "/v1" sampleParse notFoundFetch "/events/7/matches" noOptions
  = Return (Error {| detail := JStr "Not Found"; statusCode := 404 |})
  /\ (~ (200 <= 404 <= 299)%Z
      /\ ((exists err msg,
             notFoundFetch (requestOf "" "/v1" "/events/7/matches" noOptions) = Rejects err
             /\ 404%Z = 0%Z /\ JStr "Not Found" = JStr msg)
          \/ (exists res,
                notFoundFetch (requestOf "" "/v1" "/events/7/matches" noOptions) = Resolves res
                /\ 404%Z = status res))).
Proof.
  split; [reflexivity|].
  apply (apiRequest_result_reflects_status "" "/v1" sampleParse notFoundFetch
           "/events/7/matches" noOptions
           (Error {| detail := JStr "Not Found"; statusCode := 404 |})).
  reflexivity.
Defined.


Lemma error_detail_falls_back_to_status_text_witness :
  notFoundFetch (requestOf "" "/v1" "/events/7" noOptions)
  = Resolves {| status := 404; statusText := "Not Found"; body := BodyText "" |}
  /\ ok {| status := 404; statusText := "Not Found"; body := BodyText "" |} = false
  /\ body {| status := 404; statusText := "Not Found"; body := BodyText "" |} = BodyText ""
  /\ ("" = "" \/ sampleParse "" = None
      \/ exists v, sampleParse "" = Some v /\ prop "detail" v = None)
  /\ apiRequest "" "/v1" sampleParse notFoundFetch "/events/7" noOptions
     = Return (Error {| detail := JStr "Not Found"; statusCode := 404 |}).
Proof.
  split; [reflexivity|]. split; [reflexivity|]. split; [reflexivity|].
  split; [by left|].
  apply (error_detail_falls_back_to_status_text "" "/v1" sampleParse notFoundFetch
           "/events/7" noOptions
           {| status := 404; statusText := "Not Found"; body := BodyText "" |} "");
    [reflexivity | reflexivity | reflexivity | by left].
Defined.

(** ** The API base *)

Lemma dropTrailingSlash_cons (c : Ascii.ascii) (v : string) :
  v <> "" -> dropTrailingSlash (String c v) = String c (dropTrailingSlash v).
Proof. by destruct v. Qed.

Lemma append_slash_nonempty (v : string) : v ++ "/" <> "".
Proof. by destruct v. Qed.

Lemma dropTrailingSlash_app_slash (u : string) : dropTrailingSlash (u ++ "/") = u.
Proof.
  induction u as [|c u IH]; [done|].
  change (String c u ++ "/") with (String c (u ++ "/")).
  rewrite dropTrailingSlash_cons by apply append_slash_nonempty.
  by rewrite IH.
Qed.

Lemma dropTrailingSlash_no_slash (u : string) :
  endsWithSlash u = false -> dropTrailingSlash u = u.
Proof.
  induction u as [|c u IH]; [done|]. destruct u as [|d u].
  - cbn. intros H. by rewrite H.
  - intros H. rewrite dropTrailingSlash_cons by done. f_equal. by apply IH.
Qed.

(** X10: [API_BASE] is the configured URL without its last slash. A URL
    written with a slash at the end loses exactly that one character; a URL
    without one is taken as it is; with no URL configured the base is empty.
    (So a URL ending in two slashes keeps one.) *)
Theorem apiBase_drops_one_trailing_slash (u : string) :
  apiBase (Some (u ++ "/")) = u
  /\ (endsWithSlash u = false -> apiBase (Some u) = u)
  /\ apiBase (Some (u ++ "//")) = u ++ "/"
  /\ apiBase None = "" /\ apiBase (Some "") = "".
Proof.
  pose proof append_slash_nonempty as Hne.
  split_and!; try done.
  - unfold apiBase. rewrite bool_decide_eq_false_2 by apply Hne.
    apply dropTrailingSlash_app_slash.
  - intros H. unfold apiBase. case_bool_decide; [done|].
    by apply dropTrailingSlash_no_slash.
  - replace (u ++ "//") with ((u ++ "/") ++ "/").
    + unfold apiBase. rewrite bool_decide_eq_false_2 by apply Hne.
      apply dropTrailingSlash_app_slash.
    + clear. induction u as [|c u IH]; [done|].
      change (String c ((u ++ "/") ++ "/") = String c (u ++ "//")). by f_equal.
Qed.

(** ** Error messages *)

Lemma getApiErrorMessage_not_nullish (e : ApiError) :
  nullish (Some (getApiErrorMessage e)) = false.
Proof.
  unfold getApiErrorMessage.
  destruct (detail e) as [| | | |items|fields]; cbn; try done.
  destruct (field "message" fields) as [[]|]; cbn; try done;
    destruct (field "code" fields) as [[]|]; cbn; done.
Qed.

(** X11: [getApiErrorMessage] always has something to show. Its result is
    never [null] or [undefined]: a text detail is returned as it is, and a
    detail with neither a message nor a code (or with both [null]) gives
    "Something went wrong". *)
Theorem getApiErrorMessage_never_empty_handed (e : ApiError) :
  nullish (Some (getApiErrorMessage e)) = false
  /\ (forall s, detail e = JStr s -> getApiErrorMessage e = JStr s)
  /\ (nullish (prop "message" (detail e)) = true ->
      nullish (prop "code" (detail e)) = true ->
      (forall s, detail e <> JStr s) ->
      getApiErrorMessage e = JStr "Something went wrong").
Proof.
  split; [apply getApiErrorMessage_not_nullish|].
  unfold getApiErrorMessage. split.
  - by intros s ->.
  - intros Hm Hc Hs.
    destruct (detail e) as [| | |s| |fields]; cbn in *; try done.
    + by destruct (Hs s).
    + destruct (field "message" fields) as [[]|]; cbn in *; try done;
        destruct (field "code" fields) as [[]|]; cbn in *; done.
Qed.

(** X12: on an error of the declared type the message is a text, and the
    message of the detail goes before its code: with a detail that is a text,
    or an object whose [message] and [code] are texts where present,
    [getApiErrorMessage] returns a text; it is the detail's [message]
    whenever there is one, whatever the code. *)
Theorem getApiErrorMessage_typed (e : ApiError) :
  typedDetail (detail e) ->
  isString (getApiErrorMessage e)
  /\ (forall m, prop "message" (detail e) = Some (JStr m) ->
        getApiErrorMessage e = JStr m)
  /\ (forall c, prop "message" (detail e) = None ->
        prop "code" (detail e) = Some (JStr c) ->
        getApiErrorMessage e = JStr c).
Proof.
  unfold getApiErrorMessage, typedDetail.
  destruct (detail e) as [| | |s| |fields]; cbn; try done.
  intros [Hm Hc].
  destruct (field "message" fields) as [[]|]; cbn in *; try done;
    destruct (field "code" fields) as [[]|]; cbn in *; try done;
    split_and!; try done; intros; congruence.
Qed.

Lemma getApiErrorMessage_typed_witness :
  typedDetail (detail {| detail := JObj [("code", JStr "E42"); ("message", JStr "No seats left")];
                         statusCode := 409 |})
  /\ (isString (getApiErrorMessage
                  {| detail := JObj [("code", JStr "E42"); ("message", JStr "No seats left")];
                     statusCode := 409 |})
      /\ (forall m,
            prop "message"
              (detail {| detail := JObj [("code", JStr "E42"); ("message", JStr "No seats left")];
                         statusCode := 409 |}) = Some (JStr m) ->
            getApiErrorMessage
              {| detail := JObj [("code", JStr "E42"); ("message", JStr "No seats left")];
                 statusCode := 409 |} = JStr m)
      /\ (forall c,
            prop "message"
              (detail {| detail := JObj [("code", JStr "E42"); ("message", JStr "No seats left")];
                         statusCode := 409 |}) = None ->
            prop "code"
              (detail {| detail := JObj [("code", JStr "E42"); ("message", JStr "No seats left")];
                         statusCode := 409 |}) = Some (JStr c) ->
            getApiErrorMessage
              {| detail := JObj [("code", JStr "E42"); ("message", JStr "No seats left")];
                 statusCode := 409 |} = JStr c)).
Proof.
  split; [by split|].
  apply (getApiErrorMessage_typed
           {| detail := JObj [("code", JStr "E42"); ("message", JStr "No seats left")];
              statusCode := 409 |}).
  by split.
Defined.

Example getApiErrorMessage_message_first :
  getApiErrorMessage {| detail := JObj [("code", JStr "E42"); ("message", JStr "No seats left")];
                        statusCode := 409 |} = JStr "No seats left".
Proof. reflexivity. Qed.

(** ** Matches *)

Section MatchesFurther.
Variables (API_BASE API_PREFIX : string).
Variable JSON_parse : string -> option Json.
Variable fetch : Request -> FetchOutcome.
Variable isZero : string -> bool.

Local Abbreviation request := (apiRequest API_BASE API_PREFIX JSON_parse fetch).
Local Abbreviation built := (requestOf API_BASE API_PREFIX).
Local Abbreviation matches := (fetchMatchesForEvent API_BASE API_PREFIX JSON_parse fetch isZero).
Local Abbreviation matchDetail := (fetchMatchDetail API_BASE API_PREFIX JSON_parse fetch).

(** X13: what [fetchMatchesForEvent] can return. An [{ error }] it returns
    never has status code 404, and the [data] it returns is never [undefined],
    [null] or any other falsy value: in their place the caller gets the empty
    list. *)
Theorem fetchMatchesForEvent_hides_404_and_nothing
    (_token : option string) (eventId : string) (r : ApiResult) :
  matches _token eventId = Return r ->
  match r with
  | Error e => statusCode e <> 404%Z
  | Data d => truthy isZero d = true
  end.
Proof.
  unfold fetchMatchesForEvent.
  destruct (request ("/events/" ++ eventId ++ "/matches") (withToken _token))
    as [[d|e]|x]; cbn; [| |discriminate].
  - destruct (truthy isZero d) eqn:Ht; intros [= <-]; done.
  - case_bool_decide as Hs; intros [= <-]; done.
Qed.

(** X14: a missing matches endpoint reads as "no matches yet". When the
    server answers 404, or answers in the 200-299 range with no usable body
    (empty, not JSON, or [null]), [fetchMatchesForEvent] returns the empty
    list as data. *)
Theorem fetchMatchesForEvent_empty_list
    (_token : option string) (eventId : string) (res : Response) (t : string) :
  fetch (built ("/events/" ++ eventId ++ "/matches") (withToken _token)) = Resolves res ->
  body res = BodyText t ->
  status res = 404%Z
  \/ (ok res = true /\ (t = "" \/ JSON_parse t = None \/ JSON_parse t = Some JNull)) ->
  matches _token eventId = Return (Data (Some (JArr []))).
Proof.
  intros Hf Hb Hcase. unfold fetchMatchesForEvent.
  pose proof (apiRequest_outcome API_BASE API_PREFIX JSON_parse fetch
                ("/events/" ++ eventId ++ "/matches") (withToken _token)) as H.
  rewrite Hf, Hb in H. rewrite H. clear H.
  destruct Hcase as [H404 | [Hok Ht]].
  - assert (ok res = false) as -> by (unfold ok; rewrite H404; done).
    cbn. rewrite H404. by rewrite bool_decide_eq_false_2 by (intros Hne; by apply Hne).
  - rewrite Hok. cbn.
    destruct Ht as [-> | [Hp | Hp]]; [done | |].
    + case_bool_decide; [done|]. by rewrite Hp.
    + case_bool_decide; [done|]. by rewrite Hp.
Qed.

(** X15: every other failure is passed on as it is. A failed [fetch] comes
    back from [fetchMatchesForEvent] as the same error value with status code
    0, a response outside 200-299 other than 404 as the same error value, and
    an unreadable body as the same exception. *)
Theorem fetchMatchesForEvent_passes_failures_on (_token : option string) (eventId : string) :
  match request ("/events/" ++ eventId ++ "/matches") (withToken _token) with
  | Return (Error e) =>
      statusCode e <> 404%Z -> matches _token eventId = Return (Error e)
  | Return (Data _) => True
  | Throw x => matches _token eventId = Throw x
  end
  /\ (forall err,
        fetch (built ("/events/" ++ eventId ++ "/matches") (withToken _token)) = Rejects err ->
        matches _token eventId
        = Return (Error {| detail := JStr ("Network error. Check API URL and CORS settings. ("
                                            ++ messageOf err ++ ")");
                           statusCode := 0 |})).
Proof.
  split.
  - unfold fetchMatchesForEvent.
    destruct (request ("/events/" ++ eventId ++ "/matches") (withToken _token))
      as [[d|e]|x]; cbn; try done.
    intros Hs. by rewrite bool_decide_eq_true_2.
  - intros err Hf. unfold fetchMatchesForEvent.
    by rewrite (apiRequest_network_failure _ _ _ _ _ _ err Hf).
Qed.

(** X16: what [fetchMatchDetail] can return. An [{ error }] never has status
    code 404 (a missing match gives [{ data: undefined }]), and [data] is
    never [null]: a [null] body is turned into [undefined]. *)
Theorem fetchMatchDetail_hides_404_and_null
    (_token : option string) (eventId matchId : string) (r : ApiResult) :
  matchDetail _token eventId matchId = Return r ->
  match r with
  | Error e => statusCode e <> 404%Z
  | Data d => nullish d = true -> d = None
  end.
Proof.
  unfold fetchMatchDetail.
  destruct (request ("/events/" ++ eventId ++ "/matches/" ++ matchId) (withToken _token))
    as [[d|e]|x]; cbn; [| |discriminate].
  - intros [= <-]. by destruct d as [[]|].
  - case_bool_decide as Hs; intros [= <-]; done.
Qed.
End MatchesFurther.

Lemma fetchMatchesForEvent_hides_404_and_nothing_witness :
  fetchMatchesForEvent "" "/v1" sampleParse notFoundFetch neverZero (Some "tok-1") "7"
  = Return (Data (Some (JArr [])))
  /\ truthy neverZero (Some (JArr [])) = true.
Proof.
  split; [reflexivity|].
  apply (fetchMatchesForEvent_hides_404_and_nothing "" "/v1" sampleParse notFoundFetch
           neverZero (Some "tok-1") "7" (Data (Some (JArr [])))).
  reflexivity.
Defined.

Lemma fetchMatchesForEvent_empty_list_witness :
  notFoundFetch (requestOf "" "/v1" ("/events/" ++ "7" ++ "/matches") (withToken (Some "tok-1")))
  = Resolves {| status := 404; statusText := "Not Found"; body := BodyText "" |}
  /\ body {| status := 404; statusText := "Not Found"; body := BodyText "" |} = BodyText ""
  /\ (status {| status := 404; statusText := "Not Found"; body := BodyText "" |} = 404%Z
      \/ (ok {| status := 404; statusText := "Not Found"; body := BodyText "" |} = true
          /\ ("" = "" \/ sampleParse "" = None \/ sampleParse "" = Some JNull)))
  /\ fetchMatchesForEvent "" "/v1" sampleParse notFoundFetch neverZero (Some "tok-1") "7"
     = Return (Data (Some (JArr []))).
Proof.
  split; [reflexivity|]. split; [reflexivity|]. split; [by left|].
  apply (fetchMatchesForEvent_empty_list "" "/v1" sampleParse notFoundFetch neverZero
           (Some "tok-1") "7"
           {| status := 404; statusText := "Not Found"; body := BodyText "" |} "");
    [reflexivity | reflexivity | by left].
Defined.

Lemma fetchMatchDetail_hides_404_and_null_witness :
  fetchMatchDetail "" "/v1" sampleParse notFoundFetch (Some "tok-1") "7" "m1"
  = Return (Data None)
  /\ (nullish None = true -> @None Json = None).
Proof.
  split; [reflexivity|].
  apply (fetchMatchDetail_hides_404_and_null "" "/v1" sampleParse notFoundFetch
           (Some "tok-1") "7" "m1" (Data None)).
  reflexivity.
Defined.

(** ** Registration *)

(** X17: registration never reopens by itself. If registration for an event
    is open at some time, the event is published and registration was open at
    every earlier time; so once [isRegistrationOpen] is false for a published
    event it stays false as time passes. *)
Theorem registration_never_reopens
    (Date_parse : string -> option Z) (now later : Z) (event : EventDates) :
  (now <= later)%Z ->
  isRegistrationOpen Date_parse later event = true ->
  event_status event = published
  /\ isRegistrationOpen Date_parse now event = true.
Proof.
  unfold isRegistrationOpen. intros Hle.
  case_bool_decide as Hs; [done|].
  intros Hopen. split; [done|].
  destruct (rsvp_deadline event) as [d|]; [|done].
  case_bool_decide; [done|].
  destruct (Date_parse d) as [t|]; [|done].
  apply Z.ltb_lt in Hopen. apply Z.ltb_lt. lia.
Qed.

Lemma registration_never_reopens_witness :
  (1767000000000 <= 1767225599999)%Z
  /\ isRegistrationOpen sampleDates 1767225599999 sampleEvent = true
  /\ (event_status sampleEvent = published
      /\ isRegistrationOpen sampleDates 1767000000000 sampleEvent = true).
Proof.
  split; [lia|]. split; [reflexivity|].
  apply (registration_never_reopens sampleDates 1767000000000 1767225599999 sampleEvent);
    [lia | reflexivity].
Defined.

(** X18: the deadline at its edges. With no deadline, or an empty one, an
    event is open for registration exactly when it is published, at any time;
    with a deadline that is not a date it is never open; and at the instant
    of the deadline itself registration is already closed. *)
Theorem registration_deadline_edges
    (Date_parse : string -> option Z) (now : Z) (s : EventStatus) :
  isRegistrationOpen Date_parse now {| event_status := s; rsvp_deadline := None |}
  = bool_decide (s = published)
  /\ isRegistrationOpen Date_parse now {| event_status := s; rsvp_deadline := Some "" |}
     = bool_decide (s = published)
  /\ (forall d, d <> "" -> Date_parse d = None ->
        isRegistrationOpen Date_parse now {| event_status := s; rsvp_deadline := Some d |}
        = false)
  /\ (forall d, d <> "" -> Date_parse d = Some now ->
        isRegistrationOpen Date_parse now {| event_status := s; rsvp_deadline := Some d |}
        = false).
Proof.
  unfold isRegistrationOpen; cbn. split_and!.
  - by destruct s.
  - by destruct s.
  - intros d Hd Hp. destruct s; try done.
    change (bool_decide (published ≠ published)) with false.
    by rewrite bool_decide_eq_false_2, Hp.
  - intros d Hd Hp. destruct s; try done.
    change (bool_decide (published ≠ published)) with false.
    by rewrite bool_decide_eq_false_2, Hp, Z.ltb_irrefl.
Qed.

(** ** The profile schema *)

Lemma mapM_zString (items : list Json) (l : list string) :
  mapM zString items = Some l <-> items = JStr <$> l.
Proof.
  rewrite mapM_Some. split.
  - induction 1 as [|v s items l Hv _ IH]; [done|].
    destruct v; try discriminate. injection Hv as ->. cbn. by f_equal.
  - intros ->. induction l; cbn; by constructor.
Qed.

Lemma length_ge_1 (s : string) : 1 <= String.length s <-> s <> "".
Proof. destruct s; cbn; split; try done; lia. Qed.

Lemma ProfileSchema_spec (v : Json) (p : Profile) :
  ProfileSchema v = Some p
  <-> exists fields,
        v = JObj fields
        /\ field "fullName" fields = Some (JStr (fullName p))
        /\ fullName p <> ""
        /\ ((field "skills" fields = None /\ skills p = [])
            \/ field "skills" fields = Some (JArr (JStr <$> skills p))).
Proof.
  split.
  - destruct v as [| | | | |fields]; try discriminate. cbn.
    intros H. exists fields. split; [done|].
    destruct (field "fullName" fields) as [[]|]; try discriminate. cbn in H.
    destruct (guard (1 <= String.length s)) as [Hlen|] eqn:Hg; [|discriminate].
    cbn in H. pose proof (proj1 (length_ge_1 s) Hlen) as Hne. clear Hg.
    destruct (field "skills" fields) as [[| | | |items|]|]; try discriminate.
    + destruct (mapM zString items) as [l|] eqn:Hm; [|discriminate].
      injection H as <-. cbn. split_and!; try done. right.
      by apply mapM_zString in Hm as ->.
    + injection H as <-. cbn. split_and!; try done. by left.
  - intros (fields & -> & Hn & Hne & Hs). cbn. rewrite Hn. cbn.
    rewrite option_guard_True by (by apply length_ge_1). cbn.
    destruct p as [n sk]; cbn in *.
    destruct Hs as [[-> ->] | ->]; [done|].
    by rewrite (proj2 (mapM_zString _ sk) eq_refl).
Qed.


(** X19: exactly which values are valid profiles. [ProfileSchema] accepts an
    object, and nothing but an object, whose [fullName] is a non-empty text
    and whose [skills] is either absent (the profile then has no skills) or a
    list of texts, which become the skills in the same order. Every other
    key of the object is ignored. *)
Theorem ProfileSchema_accepts_exactly (v : Json) (p : Profile) :
  ProfileSchema v = Some p
  <-> exists fields,
        v = JObj fields
        /\ field "fullName" fields = Some (JStr (fullName p))
        /\ fullName p <> ""
        /\ ((field "skills" fields = None /\ skills p = [])
            \/ field "skills" fields = Some (JArr (JStr <$> skills p))).
Proof. apply ProfileSchema_spec. Qed.

(** X20: a validated profile stays valid. Whatever [ProfileSchema] returns
    has a non-empty [fullName], and validating it again, as the object it is,
    gives the same profile back. *)
Theorem ProfileSchema_idempotent (v : Json) (p : Profile) :
  ProfileSchema v = Some p ->
  fullName p <> "" /\ ProfileSchema (profileObject p) = Some p.
Proof.
  intros (fields & _ & _ & Hne & _)%ProfileSchema_spec.
  split; [done|]. apply ProfileSchema_spec.
  eexists. split; [reflexivity|]. cbn. split_and!; try done. by right.
Qed.

Lemma ProfileSchema_idempotent_witness :
  ProfileSchema plainSkills
  = Some {| fullName := "Ada Example"; skills := ["Python"; "FastAPI"] |}
  /\ (fullName {| fullName := "Ada Example"; skills := ["Python"; "FastAPI"] |} <> ""
      /\ ProfileSchema (profileObject {| fullName := "Ada Example";
                                         skills := ["Python"; "FastAPI"] |})
         = Some {| fullName := "Ada Example"; skills := ["Python"; "FastAPI"] |}).
Proof.
  split; [reflexivity|].
  apply (ProfileSchema_idempotent plainSkills
           {| fullName := "Ada Example"; skills := ["Python"; "FastAPI"] |}).
  reflexivity.
Defined.

(** ** Signing in and out *)

Section AuthFurther.
Variables (API_BASE API_PREFIX : string).
Variable JSON_parse : string -> option Json.
Variable fetch : Request -> FetchOutcome.
Variable isZero : string -> bool.
Variable toStr : Json -> string.
Variable window : bool.
Variables trim toLowerCase : string -> string.
Variable JSON_stringify : Json -> string.

Local Abbreviation request := (apiRequest API_BASE API_PREFIX JSON_parse fetch).
Local Abbreviation built := (requestOf API_BASE API_PREFIX).
Local Abbreviation exec := (runAuth isZero toStr window).
Local Abbreviation signOut := (logout API_BASE API_PREFIX JSON_parse fetch isZero toStr).
Local Abbreviation renew := (refresh API_BASE API_PREFIX JSON_parse fetch isZero JSON_stringify).
Local Abbreviation signIn :=
  (login API_BASE API_PREFIX JSON_parse fetch isZero trim toLowerCase JSON_stringify).

(** What [clearSession] leaves behind. *)
Lemma clearSession_state (st : AuthState) :
  exec clearSession st
  = {| user := None; accessToken := Some JNull;
       storedToken := if window then None else storedToken st;
       location := location st |}.
Proof. unfold runAuth; cbn. by destruct window. Qed.

(** X21: signing out ends the session whatever the server says. When the
    request to [/auth/logout] returns, with data or with any error, a failed
    [fetch] included, [logout] leaves no user, no access token, no stored
    token (in a browser) and the route [/login]; only when the request throws
    does [logout] throw too, before anything is cleared. *)
Theorem logout_clears_whatever_the_answer (tok : JsVal) (st : AuthState) :
  match request "/auth/logout" (post (tokenOption isZero toStr tok) None) with
  | Return _ =>
      exists cs, signOut tok = Return cs
                 /\ exec cs st
                    = {| user := None; accessToken := Some JNull;
                         storedToken := if window then None else storedToken st;
                         location := "/login" |}
                 /\ isAuthenticated (exec cs st) = false
  | Throw e => signOut tok = Throw e
  end.
Proof.
  unfold logout.
  destruct (request "/auth/logout" (post (tokenOption isZero toStr tok) None)) as [r|e];
    cbn; [|done].
  eexists. split; [reflexivity|].
  unfold runAuth, isAuthenticated; cbn. by destruct window.
Qed.

(** X22: [refresh] tells the truth and cleans up. It answers [true] exactly
    when the request returned truthy data, and then the commands are those of
    [setUserFromTokens] on that data; in every other case in which it
    returns (an error, no body, [null]) it answers [false] and leaves no
    user, no access token and no stored token. *)
Theorem refresh_true_iff_data (st : AuthState) (b : bool) (cs : list AuthCmd) :
  renew = Return (b, cs) ->
  (b = true
   <-> exists v, request "/auth/refresh" (post None (Some (JSON_stringify (JObj []))))
                 = Return (Data (Some v))
                 /\ truthy isZero (Some v) = true
                 /\ cs = setUserFromTokens v)
  /\ (b = false ->
      exec cs st
      = {| user := None; accessToken := Some JNull;
           storedToken := if window then None else storedToken st;
           location := location st |}
      /\ isAuthenticated (exec cs st) = false).
Proof.
  unfold refresh.
  destruct (request "/auth/refresh" (post None (Some (JSON_stringify (JObj [])))))
    as [[[v|]|e]|x]; cbn -[truthy]; [| | |discriminate].
  - destruct (truthy isZero (Some v)) eqn:Ht; intros [= <- <-].
    + split; [|discriminate]. split; [|done]. intros _. by exists v.
    + split.
      * split; [discriminate|]. intros (v' & [= <-] & Ht' & _). congruence.
      * intros _. by rewrite clearSession_state.
  - intros [= <- <-]. split.
    + split; [discriminate|]. by intros (v' & [=] & _).
    + intros _. by rewrite clearSession_state.
  - intros [= <- <-]. split.
    + split; [discriminate|]. by intros (v' & [=] & _).
    + intros _. by rewrite clearSession_state.
Qed.

(** X23: the token kept in the page and the token kept in storage agree.
    After [setUserFromTokens], in a browser, with an [access_token] that is a
    non-empty text: the [accessToken] cell holds that text, [sessionStorage]
    holds the same text, so what [getStoredToken] reads back after a reload
    is the token a request would send; the route is untouched, and the user
    counts as authenticated exactly when the answer's [status] is
    ['active']. *)
Theorem stored_token_matches_access_token (auth : Json) (s : string) (st : AuthState) :
  window = true ->
  prop "access_token" auth = Some (JStr s) ->
  s <> "" ->
  accessToken (exec (setUserFromTokens auth) st) = Some (JStr s)
  /\ getStoredToken (exec (setUserFromTokens auth) st) = Some s
  /\ tokenOption isZero toStr (accessToken (exec (setUserFromTokens auth) st))
     = getStoredToken (exec (setUserFromTokens auth) st)
  /\ location (exec (setUserFromTokens auth) st) = location st
  /\ (isAuthenticated (exec (setUserFromTokens auth) st) = true
      <-> prop "status" auth = Some (JStr "active")).
Proof.
  intros Hw Ht Hs. unfold runAuth, setUserFromTokens; cbn.
  rewrite Hw, Ht; cbn. rewrite bool_decide_eq_false_2 by done. cbn.
  split_and!; try done.
  unfold isAuthenticated; cbn.
  destruct (prop "status" auth) as [[]|]; split; try done.
  - intros Hb. apply bool_decide_eq_true in Hb. by subst.
  - intros [= ->]. done.
Qed.

(** X24: a failed sign-in changes nothing. When [login] answers with
    [ok: false] it has run no command (no user, token, storage or route is
    touched) and its [error] is never [null] or [undefined]; when it answers
    with [ok: true] there is no [error] and the commands end with the route
    [/events]. *)
Theorem login_failure_changes_nothing
    (email password : string) (res : AuthResult) (cs : list AuthCmd) (st : AuthState) :
  signIn email password = Return (res, cs) ->
  (result_ok res = false ->
     cs = [] /\ exec cs st = st /\ nullish (result_error res) = false)
  /\ (result_ok res = true ->
        result_error res = None /\ location (exec cs st) = "/events").
Proof.
  unfold login.
  destruct (request "/auth/login" _) as [[[v|]|e]|x]; cbn -[truthy]; [| | |discriminate].
  - destruct (truthy isZero (Some v)) eqn:Ht; intros [= <- <-]; cbn.
    + split; [discriminate|]. intros _. split; [done|].
      unfold runAuth; cbn. by destruct window.
    + split; [|discriminate]. done.
  - intros [= <- <-]; cbn. split; [|discriminate]. done.
  - intros [= <- <-]; cbn. split; [|discriminate]. intros _.
    split_and!; try done.
    apply getApiErrorMessage_not_nullish.
Qed.

(** X25: the server's own words reach the sign-in form. When the server
    refuses the sign-in with a status outside 200-299 and a JSON object whose
    [detail] is a text, [login] answers [ok: false] with exactly that text as
    its [error], and runs no command. *)
Theorem login_shows_server_detail
    (email password : string) (res : Response) (t : string)
    (fields : list (string * Json)) (d : string) :
  fetch (built "/auth/login"
           (post None (Some (JSON_stringify
                               (JObj [ ("email", JStr (toLowerCase (trim email)));
                                       ("password", JStr password) ])))))
  = Resolves res ->
  ok res = false ->
  body res = BodyText t ->
  t <> "" ->
  JSON_parse t = Some (JObj fields) ->
  field "detail" fields = Some (JStr d) ->
  signIn email password
  = Return ({| result_ok := false; result_error := Some (JStr d) |}, []).
Proof.
  intros Hf Hok Hb Ht Hp Hd. unfold login.
  pose proof (apiRequest_outcome API_BASE API_PREFIX JSON_parse fetch "/auth/login"
                (post None (Some (JSON_stringify
                                    (JObj [ ("email", JStr (toLowerCase (trim email)));
                                            ("password", JStr password) ]))))) as H.
  rewrite Hf, Hb, Hok in H. rewrite H. clear H.
  rewrite bool_decide_eq_false_2 by done. rewrite Hp.
  cbn. unfold getApiErrorMessage; cbn. by rewrite Hd.
Qed.
End AuthFurther.

Lemma refresh_true_iff_data_witness :
  refresh "" "/v1" authParse authFetch neverZero noText
  = Return (true, setUserFromTokens authPayload)
  /\ ((true = true
       <-> exists v,
             apiRequest "" "/v1" authParse authFetch "/auth/refresh"
               (post None (Some (noText (JObj []))))
             = Return (Data (Some v))
             /\ truthy neverZero (Some v) = true
             /\ setUserFromTokens authPayload = setUserFromTokens v)
      /\ (true = false ->
          runAuth neverZero noText true (setUserFromTokens authPayload) signedOut
          = {| user := None; accessToken := Some JNull;
               storedToken := if true then None else storedToken signedOut;
               location := location signedOut |}
          /\ isAuthenticated
               (runAuth neverZero noText true (setUserFromTokens authPayload) signedOut)
             = false)).
Proof.
  split; [reflexivity|].
  apply (refresh_true_iff_data "" "/v1" authParse authFetch neverZero noText true noText
           signedOut true (setUserFromTokens authPayload)).
  reflexivity.
Defined.

Lemma stored_token_matches_access_token_witness :
  true = true
  /\ prop "access_token" authPayload = Some (JStr "tok-2")
  /\ "tok-2" <> ""
  /\ (accessToken (runAuth neverZero noText true (setUserFromTokens authPayload) signedOut)
      = Some (JStr "tok-2")
      /\ getStoredToken (runAuth neverZero noText true (setUserFromTokens authPayload) signedOut)
         = Some "tok-2"
      /\ tokenOption neverZero noText
           (accessToken (runAuth neverZero noText true (setUserFromTokens authPayload) signedOut))
         = getStoredToken
             (runAuth neverZero noText true (setUserFromTokens authPayload) signedOut)
      /\ location (runAuth neverZero noText true (setUserFromTokens authPayload) signedOut)
         = location signedOut
      /\ (isAuthenticated
            (runAuth neverZero noText true (setUserFromTokens authPayload) signedOut) = true
          <-> prop "status" authPayload = Some (JStr "active"))).
Proof.
  split; [reflexivity|]. split; [reflexivity|]. split; [discriminate|].
  apply (stored_token_matches_access_token neverZero noText true authPayload "tok-2" signedOut);
    [reflexivity | reflexivity | discriminate].
Defined.

Lemma login_failure_changes_nothing_witness :
  login "" "/v1" deniedParse deniedFetch neverZero (fun s => s) (fun s => s) noText
    "ada@example.com" "wrong"
  = Return ({| result_ok := false;
               result_error := Some (JStr "Invalid email or password") |}, [])
  /\ ((result_ok {| result_ok := false;
                    result_error := Some (JStr "Invalid email or password") |} = false ->
       @nil AuthCmd = [] /\ runAuth neverZero noText true [] signedOut = signedOut
       /\ nullish (result_error {| result_ok := false;
                                   result_error := Some (JStr "Invalid email or password") |})
          = false)
      /\ (result_ok {| result_ok := false;
                       result_error := Some (JStr "Invalid email or password") |} = true ->
          result_error {| result_ok := false;
                          result_error := Some (JStr "Invalid email or password") |} = None
          /\ location (runAuth neverZero noText true [] signedOut) = "/events")).
Proof.
  split; [reflexivity|].
  apply (login_failure_changes_nothing "" "/v1" deniedParse deniedFetch neverZero noText true
           (fun s => s) (fun s => s) noText "ada@example.com" "wrong"
           {| result_ok := false; result_error := Some (JStr "Invalid email or password") |}
           [] signedOut).
  reflexivity.
Defined.

Lemma login_shows_server_detail_witness :
  deniedFetch (requestOf "" "/v1" "/auth/login"
                 (post None (Some (noText (JObj [ ("email", JStr "ada@example.com");
                                                  ("password", JStr "wrong") ])))))
  = Resolves {| status := 401; statusText := "Unauthorized"; body := BodyText "denied" |}
  /\ ok {| status := 401; statusText := "Unauthorized"; body := BodyText "denied" |} = false
  /\ body {| status := 401; statusText := "Unauthorized"; body := BodyText "denied" |}
     = BodyText "denied"
  /\ "denied" <> ""
  /\ deniedParse "denied" = Some (JObj [("detail", JStr "Invalid email or password")])
  /\ field "detail" [("detail", JStr "Invalid email or password")]
     = Some (JStr "Invalid email or password")
  /\ login "" "/v1" deniedParse deniedFetch neverZero (fun s => s) (fun s => s) noText
       "ada@example.com" "wrong"
     = Return ({| result_ok := false;
                  result_error := Some (JStr "Invalid email or password") |}, []).
Proof.
  split; [reflexivity|]. split; [reflexivity|]. split; [reflexivity|].
  split; [discriminate|]. split; [reflexivity|]. split; [reflexivity|].
  apply (login_shows_server_detail "" "/v1" deniedParse deniedFetch neverZero
           (fun s => s) (fun s => s) noText "ada@example.com" "wrong"
           {| status := 401; statusText := "Unauthorized"; body := BodyText "denied" |}
           "denied" [("detail", JStr "Invalid email or password")]
           "Invalid email or password");
    [reflexivity | reflexivity | reflexivity | discriminate | reflexivity | reflexivity].
Defined.

Example logout_signed_in :
  (runAuth neverZero noText true (clearSession ++ [routerPush "/login"]) signedIn) = signedOut.
Proof. reflexivity. Qed.

(** ** Forms *)

Section FormsFurther.
Variables (API_BASE API_PREFIX : string).
Variable JSON_parse : string -> option Json.
Variable fetch : Request -> FetchOutcome.
Variable isZero : string -> bool.
Variable toStr : Json -> string.
Variables trim toLowerCase : string -> string.
Variable JSON_stringify : Json -> string.

Local Abbreviation signIn :=
  (login API_BASE API_PREFIX JSON_parse fetch isZero trim toLowerCase JSON_stringify).
Local Abbreviation create :=
  (handleCreate API_BASE API_PREFIX JSON_parse fetch isZero toStr trim).

(** The [error] of a failed [login] is never [null] or [undefined]. *)
Lemma login_error_not_nullish (email password : string) (res : AuthResult)
    (cs : list AuthCmd) :
  signIn email password = Return (res, cs) ->
  result_ok res = false -> nullish (result_error res) = false.
Proof.
  unfold login.
  destruct (apiRequest API_BASE API_PREFIX JSON_parse fetch "/auth/login" _)
    as [[[v|]|e]|x]; cbn -[truthy]; [| | |discriminate].
  - destruct (truthy isZero (Some v)); intros [= <- <-]; cbn; [discriminate|done].
  - by intros [= <- <-].
  - intros [= <- <-] _. apply getApiErrorMessage_not_nullish.
Qed.

(** X26: the sign-in form never stays busy. However [login] ends, by
    success, by failure or by an exception, the form's [loading] is false
    afterwards; the handler throws exactly when [login] does; after a success
    the error text is empty; and after a failure it is the [error] that
    [login] gave, which is never missing, so the form's own "Login failed"
    never replaces it. *)
Theorem login_form_never_stays_busy (email password : string) :
  let after := LoginPage_handleSubmit API_BASE API_PREFIX JSON_parse fetch isZero trim
                 toLowerCase JSON_stringify email password in
  login_loading after.1 = false
  /\ match signIn email password with
     | Throw e => after.2 = Some e
     | Return (res, _) =>
         after.2 = None
         /\ login_error after.1 = (if result_ok res then Some (JStr "") else result_error res)
     end.
Proof.
  cbv zeta. unfold LoginPage_handleSubmit.
  destruct (signIn email password) as [[res cs]|e] eqn:Hl; cbn; [|done].
  split_and!; try done.
  destruct (result_ok res) eqn:Hok; [done|].
  by rewrite (login_error_not_nullish email password res cs Hl Hok).
Qed.

(** An event without a title is never sent. With a title that is empty
    once trimmed, [handleCreate] ends at once with the error "Title is
    required.", whatever the payload and whatever the server would have
    answered; the inputs and [loading] stay as they were and no created event
    is shown. *)
Theorem untitled_event_is_not_sent
    (accessToken : JsVal) (payload : Completion string) (st : OrganizerPage) :
  trim (form_title (form st)) = "" ->
  create accessToken payload st
  = ({| form := form st; org_loading := org_loading st;
        org_error := Some (JStr "Title is required."); org_created := None |}, None).
Proof. intros H. unfold handleCreate. by rewrite bool_decide_eq_true_2. Qed.

(** X27: what the "Create event" form looks like afterwards. For a title
    that is not blank: [loading] is left on exactly when the handler ended
    with an exception (the payload could not be built, or the request threw);
    the inputs are cleared only when a created event is shown, and then no
    error is shown; in every other case what the user typed is kept. *)
Theorem create_form_afterwards
    (accessToken : JsVal) (payload : Completion string) (st : OrganizerPage) :
  trim (form_title (form st)) <> "" ->
  (org_loading (create accessToken payload st).1 = true
   <-> (create accessToken payload st).2 <> None)
  /\ (org_created (create accessToken payload st).1 <> None ->
        form (create accessToken payload st).1 = emptyForm
        /\ org_error (create accessToken payload st).1 = Some JNull)
  /\ (org_created (create accessToken payload st).1 = None ->
        form (create accessToken payload st).1 = form st).
Proof.
  intros H. unfold handleCreate. rewrite bool_decide_eq_false_2 by done.
  destruct (body ← payload; createEvent _ _ _ _ _ _) as [[[v|]|err]|e];
    cbn -[truthy]; try (destruct (truthy isZero (Some v))); cbn;
    split_and!; try done; try (split; [discriminate|intros Hn; by destruct Hn]).
  all: try (split; [done|]; intros _; discriminate).
Qed.
End FormsFurther.

Lemma untitled_event_is_not_sent_witness :
  (fun s : string => s) (form_title (form {| form := emptyForm; org_loading := false;
                                             org_error := Some JNull;
                                             org_created := None |})) = ""
  /\ handleCreate "" "/v1" createdParse createdFetch neverZero noText (fun s => s)
       (Some (JStr "tok-1")) (Return "payload")
       {| form := emptyForm; org_loading := false; org_error := Some JNull;
          org_created := None |}
     = ({| form := emptyForm; org_loading := false;
           org_error := Some (JStr "Title is required."); org_created := None |}, None).
Proof.
  split; [reflexivity|].
  apply (untitled_event_is_not_sent "" "/v1" createdParse createdFetch neverZero noText
           (fun s => s) (Some (JStr "tok-1")) (Return "payload")
           {| form := emptyForm; org_loading := false; org_error := Some JNull;
              org_created := None |}).
  reflexivity.
Defined.

Lemma create_form_afterwards_witness :
  (fun s : string => s) (form_title (form organizerIdle)) <> ""
  /\ ((org_loading (handleCreate "" "/v1" createdParse createdFetch neverZero noText
                      (fun s => s) (Some (JStr "tok-1")) (Return "payload") organizerIdle).1
       = true
       <-> (handleCreate "" "/v1" createdParse createdFetch neverZero noText
              (fun s => s) (Some (JStr "tok-1")) (Return "payload") organizerIdle).2 <> None)
      /\ (org_created (handleCreate "" "/v1" createdParse createdFetch neverZero noText
                         (fun s => s) (Some (JStr "tok-1")) (Return "payload")
                         organizerIdle).1 <> None ->
          form (handleCreate "" "/v1" createdParse createdFetch neverZero noText
                  (fun s => s) (Some (JStr "tok-1")) (Return "payload") organizerIdle).1
          = emptyForm
          /\ org_error (handleCreate "" "/v1" createdParse createdFetch neverZero noText
                          (fun s => s) (Some (JStr "tok-1")) (Return "payload")
                          organizerIdle).1 = Some JNull)
      /\ (org_created (handleCreate "" "/v1" createdParse createdFetch neverZero noText
                         (fun s => s) (Some (JStr "tok-1")) (Return "payload")
                         organizerIdle).1 = None ->
          form (handleCreate "" "/v1" createdParse createdFetch neverZero noText
                  (fun s => s) (Some (JStr "tok-1")) (Return "payload") organizerIdle).1
          = form organizerIdle)).
Proof.
  split; [discriminate|].
  apply (create_form_afterwards "" "/v1" createdParse createdFetch neverZero noText
           (fun s => s) (Some (JStr "tok-1")) (Return "payload") organizerIdle).
  discriminate.
Defined.

Example create_event_accepted :
  handleCreate "" "/v1" createdParse createdFetch neverZero noText (fun s => s)
    (Some (JStr "tok-1")) (Return "payload") organizerIdle
  = ({| form := emptyForm; org_loading := false; org_error := Some JNull;
        org_created := Some (Some (JStr "e1"), Some (JStr "J0IN")) |}, None).
Proof. reflexivity. Qed.

Example create_event_invalid_date :
  handleCreate "" "/v1" createdParse createdFetch neverZero noText (fun s => s)
    (Some (JStr "tok-1")) (Throw (ErrorObject "Invalid time value")) organizerIdle
  = ({| form := filledForm; org_loading := true; org_error := Some JNull;
        org_created := None |}, Some (ErrorObject "Invalid time value")).
Proof. reflexivity. Qed.
